(** * epui weather providers: a shallow embedding of [weather.py]

    The development follows the data-acquisition layer of [weather.py]:
    the enumerations and the [Weather] record, the provider classes
    ([WeatherProvider], [CachedWeatherProvider], [DirectWeatherProvider],
    [CaiYunWeatherProvider]) and the CaiYun payload parser.

    Conventions of the embedding.
    - A Python [str] is a [string] holding its UTF-8 bytes.
    - A Python [float] is the rational it stands for ([Q]), or one of the
      two infinities, or NaN, which [json.loads] accepts. The division of
      the code, [/], rounds its quotient to the nearest binary64 value
      (see [Binary64]); differences of clock readings are taken exactly.
    - A Python [int] is a [Z].
    - A call that may raise returns [exn + A]; code that also talks to the
      outside world threads a [World] through (see [M]). *)

From Stdlib Require Import ZArith QArith Qround String Ascii List Bool Lia.
From Stdlib Require Import Sorted.
From Stdlib Require Import Qabs Qpower Lqa.
From Stdlib Require SpecFloat.
Import ListNotations.

Set Warnings "-register-all".
Local Open Scope string_scope.

(** ** Enumerations *)

Inductive Day : Type :=
| CLEAR | CLOUDY | LIGHTLY_RAINY | RAINY | HEAVILY_RAINY | SNOWY_RAINY
| LIGHTLY_SNOWY | SNOWY | HEAVILY_SNOWY | HAZY | FOGGY | DUSTY | SANDY
| WINDY | UNKNOWN.

Inductive TemperatureUnit : Type := CELSIUS | FAHRENHEIT | KELVIN.

Inductive WeatherEffectiveness : Type := CURRENT | HOURLY | DAILY | ANY.

Definition Day_eq_dec (a b : Day) : {a = b} + {a <> b}.
Proof. decide equality. Defined.

Definition WeatherEffectiveness_eq_dec (a b : WeatherEffectiveness) :
  {a = b} + {a <> b}.
Proof. decide equality. Defined.

(** ** Strings: [str.lower], [in], [==] *)

Module PyStr.

(** [c.lower()] on one byte: the letters A..Z move to a..z, every other
    byte (digits, punctuation, the bytes of a multi-byte character) stays.
    [str.lower] also lower-cases letters outside ASCII; the only ASCII
    letters that come out of them are an i followed by a combining dot and
    a k (from the Kelvin sign), which complete none of the codes compared
    below, so the classification is the same. *)
Definition lower_ascii (c : ascii) : ascii :=
  let n := N_of_ascii c in
  if ((65 <=? n) && (n <=? 90))%N then ascii_of_N (n + 32) else c.

Fixpoint lower (s : string) : string :=
  match s with
  | EmptyString => EmptyString
  | String c rest => String (lower_ascii c) (lower rest)
  end.

(** [hay.startswith(needle)] *)
Fixpoint starts_with (needle hay : string) : bool :=
  match needle, hay with
  | EmptyString, _ => true
  | String _ _, EmptyString => false
  | String a n', String b h' => Ascii.eqb a b && starts_with n' h'
  end.

(** [needle in hay] for two strings: substring search. *)
Fixpoint contains (needle hay : string) : bool :=
  starts_with needle hay ||
  match hay with
  | EmptyString => false
  | String _ rest => contains needle rest
  end.

End PyStr.

(** ** Sky-condition classification *)

(** [CaiYunWeatherProvider.__caiyun_get_day] *)
Definition caiyun_get_day (raw : string) : Day :=
  let raw := PyStr.lower raw in
  if PyStr.contains "clear" raw then CLEAR
  else if PyStr.contains "cloudy" raw then CLOUDY
  else if PyStr.contains "haze" raw then HAZY
  else if String.eqb raw "light_rain" then LIGHTLY_RAINY
  else if String.eqb raw "moderate_rain" then RAINY
  else if String.eqb raw "heavy_rain" || String.eqb raw "storm_rain"
       then HEAVILY_RAINY
  else if String.eqb raw "fog" then FOGGY
  else if String.eqb raw "light_snow" then LIGHTLY_SNOWY
  else if String.eqb raw "moderate_snow" then SNOWY
  else if String.eqb raw "heavy_snow" || String.eqb raw "storm_snow"
       then HEAVILY_SNOWY
  else if String.eqb raw "dust" then DUSTY
  else if String.eqb raw "sand" then SANDY
  else if String.eqb raw "wind" then WINDY
  else UNKNOWN.

(** The classification as the specification words it: three coarse
    categories found by substring, tried in this order, then a table of
    exact codes, then [UNKNOWN]. *)
Definition coarse_categories : list (string * Day) :=
  [("clear", CLEAR); ("cloudy", CLOUDY); ("haze", HAZY)].

Definition exact_codes : list (string * Day) :=
  [("light_rain", LIGHTLY_RAINY); ("moderate_rain", RAINY);
   ("heavy_rain", HEAVILY_RAINY); ("storm_rain", HEAVILY_RAINY);
   ("fog", FOGGY);
   ("light_snow", LIGHTLY_SNOWY); ("moderate_snow", SNOWY);
   ("heavy_snow", HEAVILY_SNOWY); ("storm_snow", HEAVILY_SNOWY);
   ("dust", DUSTY); ("sand", SANDY); ("wind", WINDY)].

Definition first_substring (table : list (string * Day)) (s : string)
  : option Day :=
  option_map snd (find (fun e => PyStr.contains (fst e) s) table).

Definition exact_lookup (table : list (string * Day)) (s : string)
  : option Day :=
  option_map snd (find (fun e => String.eqb s (fst e)) table).

Definition classify_spec (raw : string) : Day :=
  let code := PyStr.lower raw in
  match first_substring coarse_categories code with
  | Some d => d
  | None =>
      match exact_lookup exact_codes code with
      | Some d => d
      | None => UNKNOWN
      end
  end.

(** ** Python values and exceptions *)

Inductive exn : Type :=
| IOError | ValueError | KeyError | IndexError | TypeError
| AttributeError | OverflowError.

(** A [float]: a rational, or one of the non-finite values that
    [json.loads] reads from [Infinity], [-Infinity] and [NaN]. *)
Inductive pyfloat : Type :=
| Finite (q : Q)
| Infinite (negative : bool)
| NaN.

(** What [json.loads] can return. A dict keeps its entries as an
    association list; a lookup takes the first entry under the key. *)
Inductive pyval : Type :=
| PNone
| PBool (b : bool)
| PInt (z : Z)
| PFloat (f : pyfloat)
| PStr (s : string)
| PList (items : list pyval)
| PDict (entries : list (string * pyval)).

(** Results of calls that may raise. *)
Definition res (A : Type) : Type := (exn + A)%type.

Definition ret {A} (a : A) : res A := inr a.
Definition raise {A} (e : exn) : res A := inl e.
Definition bind {A B} (m : res A) (k : A -> res B) : res B :=
  match m with
  | inl e => inl e
  | inr a => k a
  end.

Declare Scope res_scope.
Delimit Scope res_scope with res.
Notation "x <- m ;; k" := (bind m (fun x => k))
  (at level 61, m at next level, right associativity) : res_scope.

(** ** Binary64 rounding *)

Module Binary64.

(** The largest [k] with [2 ^ k <= x], for a positive [x]. *)
Definition log2_floor (x : Q) : Z :=
  let k := (Z.log2 (Qnum x) - Z.log2 (Zpos (Qden x)))%Z in
  if Qle_bool (2 ^ k) x then k else (k - 1)%Z.

(** The exponent of the unit in the last place around [x]: 53 bits of
    precision, and no unit smaller than [2 ^ -1074], the spacing of the
    subnormal numbers. *)
Definition ulp_exponent (x : Q) : Z :=
  Z.max (log2_floor (Qabs x) - 52) (-1074).

(** The integer nearest to [y], the even one of the two when [y] lies
    half way. *)
Definition round_half_even (y : Q) : Z :=
  let f := Qfloor y in
  match Qcompare (y - inject_Z f) (1 # 2) with
  | Lt => f
  | Gt => (f + 1)%Z
  | Eq => if Z.even f then f else (f + 1)%Z
  end.

(** The multiple of the unit in the last place nearest to [x], ties to
    even: the binary64 value a correctly rounded operation returns for
    the exact result [x], as long as it does not overflow. A zero result
    carries no sign. *)
Definition round (x : Q) : Q :=
  if Qeq_bool x 0 then 0
  else Qred (inject_Z (round_half_even (x / 2 ^ ulp_exponent x))
             * 2 ^ ulp_exponent x).

(** The rounded result [r] is beyond the largest binary64 value. *)
Definition overflows (r : Q) : bool := Qle_bool (2 ^ 1024) (Qabs r).

(** The value of a float of the Standard Library's [SpecFloat], to
    compare [round] with its division. *)
Definition SF2Q (f : SpecFloat.spec_float) : option Q :=
  match f with
  | SpecFloat.S754_zero _ => Some 0
  | SpecFloat.S754_finite s m e =>
      Some (Qred ((if s then - (1) else 1) * inject_Z (Zpos m) * 2 ^ e))
  | _ => None
  end.

Definition SF_of_Z (z : Z) : SpecFloat.spec_float :=
  match z with
  | Z0 => SpecFloat.S754_zero false
  | Zpos p => SpecFloat.S754_finite false p 0
  | Zneg p => SpecFloat.S754_finite true p 0
  end.

(** [n / d] by the division of [SpecFloat] at 53 bits. *)
Definition SF_quotient (n d : Z) : option Q :=
  SF2Q (SpecFloat.SFdiv 53 1024 (SF_of_Z n) (SF_of_Z d)).

End Binary64.

Module Py.
Local Open Scope res_scope.

(** [PStr k == v] *)
Definition is_str (k : string) (v : pyval) : bool :=
  match v with
  | PStr s => String.eqb k s
  | _ => false
  end.

Definition has_key (k : string) (e : string * pyval) : bool :=
  String.eqb k (fst e).

(** [k in v] for a string literal [k]: key test on a dict, membership on
    a list, substring on a str; anything else is not iterable. *)
Definition contains (k : string) (v : pyval) : res bool :=
  match v with
  | PDict d => ret (existsb (has_key k) d)
  | PList l => ret (existsb (is_str k) l)
  | PStr s => ret (PyStr.contains k s)
  | _ => raise TypeError
  end.

(** The value a dict holds under [k], if any. *)
Definition lookup (k : string) (d : list (string * pyval)) : option pyval :=
  option_map snd (find (has_key k) d).

(** [v[k]] for a string literal [k]. *)
Definition getitem (v : pyval) (k : string) : res pyval :=
  match v with
  | PDict d =>
      match lookup k d with
      | Some x => ret x
      | None => raise KeyError
      end
  | _ => raise TypeError
  end.

(** [v[i]] for [i] taken from [range(len(v))]. *)
Definition index (v : pyval) (i : nat) : res pyval :=
  match v with
  | PList l =>
      match nth_error l i with
      | Some x => ret x
      | None => raise IndexError
      end
  | PStr s =>
      match String.get i s with
      | Some c => ret (PStr (String c EmptyString))
      | None => raise IndexError
      end
  | PDict _ => raise KeyError
  | _ => raise TypeError
  end.

(** [len(v)] *)
Definition len (v : pyval) : res nat :=
  match v with
  | PList l => ret (List.length l)
  | PDict d => ret (List.length d)
  | PStr s => ret (String.length s)
  | _ => raise TypeError
  end.

(** Truncation toward zero, as [int(x)] does on a float. *)
Definition trunc (q : Q) : Z := Z.quot (Qnum q) (Zpos (Qden q)).

(** [f / d] on two floats: the quotient rounded to binary64, an
    infinity when the rounded quotient overflows. *)
Definition float_div (f : pyfloat) (d : Q) : pyfloat :=
  match f with
  | Finite q =>
      let r := Binary64.round (q / d) in
      if Binary64.overflows r then Infinite (negb (Qle_bool 0 r))
      else Finite r
  | Infinite n => Infinite n
  | NaN => NaN
  end.

(** [z / d] on two ints: the quotient rounded to binary64, and
    [OverflowError] when it is too large for a float. *)
Definition int_div (z : Z) (d : positive) : res pyval :=
  let r := Binary64.round (inject_Z z / inject_Z (Zpos d)) in
  if Binary64.overflows r then raise OverflowError
  else ret (PFloat (Finite r)).

(** [v / d] for a positive integer literal [d]: true division. A bool
    divides as the int it is, a float by [d] as a float. *)
Definition truediv (v : pyval) (d : positive) : res pyval :=
  match v with
  | PInt z => int_div z d
  | PBool b => int_div (if b then 1 else 0) d
  | PFloat f => ret (PFloat (float_div f (inject_Z (Zpos d))))
  | _ => raise TypeError
  end.

(** The number a JSON number stands for. *)
Definition number_value (v : pyval) : option Q :=
  match v with
  | PInt z => Some (inject_Z z)
  | PFloat (Finite q) => Some q
  | _ => None
  end.

End Py.

(** ** The Python runtime and the outside world *)

(** Library functions the module calls and whose results it only passes
    on: they are left abstract, every statement below holds for any
    implementation of them. *)
Class PyRuntime : Type := {
  (** [time.struct_time] *)
  struct_time : Type;
  (** [time.localtime()] when the clock reads [t] *)
  localtime : Q -> struct_time;
  (** [datetime.datetime.fromisoformat(s).timetuple()]; [None] stands for
      the [ValueError] of a string that is not in ISO format *)
  isoformat_timetuple : string -> option struct_time;
  (** [int(s)] for a str [s]; [None] stands for its [ValueError] *)
  int_of_str : string -> option Z;
  (** [json.loads(text)] *)
  json_loads : string -> res pyval;
  (** [f'{x}'] for a float [x] *)
  format_float : Q -> string
}.

(** [requests.Response], the two attributes the module reads. *)
Record Response : Type := { ok : bool; text : string }.

(** The world outside the provider objects: the wall clock, read one
    value after the other, and the upstream server, answering one request
    after the other. [sent] lists the URLs requested so far, latest first. *)
Record World : Type := {
  clock : nat -> Q;
  reads : nat;
  upstream : nat -> res Response;
  sent : list string
}.

(** Code with effects on the world; an exception leaves the world as it
    was when it was raised. *)
Definition M (A : Type) : Type := World -> res A * World.

Definition retM {A} (a : A) : M A := fun w => (inr a, w).
Definition raiseM {A} (e : exn) : M A := fun w => (inl e, w).
Definition bindM {A B} (m : M A) (k : A -> M B) : M B :=
  fun w =>
    match m w with
    | (inl e, w') => (inl e, w')
    | (inr a, w') => k a w'
    end.
Definition lift {A} (r : res A) : M A := fun w => (r, w).

Declare Scope world_scope.
Delimit Scope world_scope with world.
Notation "x <- m ;; k" := (bindM m (fun x => k))
  (at level 61, m at next level, right associativity) : world_scope.

Definition tick (w : World) : World :=
  {| clock := clock w; reads := S (reads w);
     upstream := upstream w; sent := sent w |}.

(** What the clock reads when it is read next. *)
Definition now (w : World) : Q := clock w (reads w).

(** [time.time()]: it takes the next reading of the clock. *)
Definition pytime_time (w : World) : Q * World := (now w, tick w).

(** [time.localtime()] *)
Definition pytime_localtime `{PyRuntime} : M struct_time :=
  fun w => (inr (localtime (now w)), tick w).

(** [requests.get(url)] *)
Definition requests_get (url : string) : M Response :=
  fun w =>
    (upstream w (List.length (sent w)),
     {| clock := clock w; reads := reads w;
        upstream := upstream w; sent := url :: sent w |}).

(** ** The data model *)

Record Location : Type := {
  latitude : Q;
  longitude : Q;
  friendly_name : option string
}.

Record Weather `{PyRuntime} : Type := {
  time : struct_time;
  effect : WeatherEffectiveness;
  day : Day;
  temperature : pyval;
  humidity : pyval;
  pressure : pyval;
  uv_index : Z
}.

(** ** Providers *)

(** [WeatherProvider]: the two private attributes and their accessors. *)
Record WeatherProvider : Type := {
  wp_location : Location;
  wp_temperature_unit : TemperatureUnit
}.

Definition WeatherProvider_init (location : Location)
    (temperature_unit : TemperatureUnit) : WeatherProvider :=
  {| wp_location := location; wp_temperature_unit := temperature_unit |}.

Definition get_location (self : WeatherProvider) : Location :=
  wp_location self.

Definition get_temperature_unit (self : WeatherProvider) : TemperatureUnit :=
  wp_temperature_unit self.

(** [now - then < ttl] on float seconds *)
Definition Qltb (x y : Q) : bool := negb (Qle_bool y x).

Section Providers.
Context `{PyRuntime}.

(** *** [CachedWeatherProvider] *)

Record CachedWeatherProvider : Type := {
  cached_base : WeatherProvider;
  cache_invalidation : Q;
  update_time : option Q;
  cache : option (list Weather)
}.

Definition default_cache_invalidate_interval : Q := 3600.

Definition CachedWeatherProvider_init (location : Location)
    (temperature_unit : TemperatureUnit) (cache_invalidate_interval : Q)
  : CachedWeatherProvider :=
  {| cached_base := WeatherProvider_init location temperature_unit;
     cache_invalidation := cache_invalidate_interval;
     update_time := None;
     cache := None |}.

Definition set_update_time (self : CachedWeatherProvider) (t : Q)
  : CachedWeatherProvider :=
  {| cached_base := cached_base self;
     cache_invalidation := cache_invalidation self;
     update_time := Some t;
     cache := cache self |}.

Definition set_cache (self : CachedWeatherProvider) (data : list Weather)
  : CachedWeatherProvider :=
  {| cached_base := cached_base self;
     cache_invalidation := cache_invalidation self;
     update_time := update_time self;
     cache := Some data |}.

(** What one call of [get_weather] leaves behind: the value returned
    ([None] when [self.__cache] still holds Python's [None]) or the
    exception raised, the object, the world, and how many times the call
    invoked [self.invalidate()]. *)
Record Outcome : Type := {
  returned : res (option (list Weather));
  self_after : CachedWeatherProvider;
  world_after : World;
  refreshes : nat
}.

Section CachedGetWeather.
(** [self.invalidate()], the hook a subclass overrides. *)
Variable invalidate : M (list Weather).

(** Lines 134-137: stamp the time, refresh, store, return. *)
Definition refresh_and_store (self : CachedWeatherProvider) (w : World)
  : Outcome :=
  let (now, w1) := pytime_time w in
  let self1 := set_update_time self now in
  match invalidate w1 with
  | (inl e, w2) =>
      {| returned := inl e; self_after := self1;
         world_after := w2; refreshes := 1 |}
  | (inr new_data, w2) =>
      {| returned := inr (Some new_data);
         self_after := set_cache self1 new_data;
         world_after := w2; refreshes := 1 |}
  end.

(** [CachedWeatherProvider.get_weather]. The clock is read for the
    freshness test only when a timestamp is stored ([and] short-cuts). *)
Definition Cached_get_weather (self : CachedWeatherProvider) (w : World)
  : Outcome :=
  match update_time self with
  | None => refresh_and_store self w
  | Some then_ =>
      let (now, w1) := pytime_time w in
      if Qltb (now - then_) (cache_invalidation self)
      then {| returned := inr (cache self); self_after := self;
              world_after := w1; refreshes := 0 |}
      else refresh_and_store self w1
  end.
End CachedGetWeather.

(** *** [DirectWeatherProvider] *)

Record DirectWeatherProvider : Type := {
  direct_base : WeatherProvider;
  direct_weather : Weather
}.

Definition test_land : Location :=
  {| latitude := 0; longitude := 0; friendly_name := Some "Test Land" |}.

Definition DirectWeatherProvider_init (weather : Weather)
    (location : Location) : DirectWeatherProvider :=
  {| direct_base := WeatherProvider_init location CELSIUS;
     direct_weather := weather |}.

(** [DirectWeatherProvider.get_weather]: it reads one attribute, so it
    is a function of the object alone. *)
Definition Direct_get_weather (self : DirectWeatherProvider)
  : list Weather :=
  [direct_weather self].

(** The results of [n] calls in a row, first call first. *)
Fixpoint Direct_calls (n : nat) (self : DirectWeatherProvider)
  : list (list Weather) :=
  match n with
  | O => []
  | S n' => Direct_get_weather self :: Direct_calls n' self
  end.

(** *** [CaiYunWeatherProvider] *)

Record CaiYunWeatherProvider : Type := {
  caiyun_base : CachedWeatherProvider;
  api_key : string
}.

Definition CaiYunWeatherProvider_init (location : Location)
    (api_key : string) (cache_invalidate_interval : Q)
  : CaiYunWeatherProvider :=
  {| caiyun_base :=
       CachedWeatherProvider_init location CELSIUS cache_invalidate_interval;
     api_key := api_key |}.

(** The methods a [CaiYunWeatherProvider] inherits from
    [WeatherProvider]. *)
Definition CaiYun_get_location (self : CaiYunWeatherProvider) : Location :=
  get_location (cached_base (caiyun_base self)).

Definition CaiYun_get_temperature_unit (self : CaiYunWeatherProvider)
  : TemperatureUnit :=
  get_temperature_unit (cached_base (caiyun_base self)).

(** [__get_api_url] *)
Definition get_api_url (self : CaiYunWeatherProvider) : string :=
  "https://api.caiyunapp.com/v2.6/" ++ api_key self ++ "/" ++
  format_float (longitude (CaiYun_get_location self)) ++ "," ++
  format_float (latitude (CaiYun_get_location self)).

Section Parsing.
Local Open Scope res_scope.

(** [int(v)] *)
Definition py_int (v : pyval) : res Z :=
  match v with
  | PInt z => ret z
  | PBool b => ret (if b then 1%Z else 0%Z)
  | PFloat (Finite q) => ret (Py.trunc q)
  | PFloat (Infinite _) => raise OverflowError
  | PFloat NaN => raise ValueError
  | PStr s =>
      match int_of_str s with
      | Some z => ret z
      | None => raise ValueError
      end
  | _ => raise TypeError
  end.

(** [datetime.datetime.fromisoformat(v).timetuple()] *)
Definition py_timetuple (v : pyval) : res struct_time :=
  match v with
  | PStr s =>
      match isoformat_timetuple s with
      | Some t => ret t
      | None => raise ValueError
      end
  | _ => raise TypeError
  end.

(** [self.__caiyun_get_day(v)]: only a str has [lower]. *)
Definition py_get_day (v : pyval) : res Day :=
  match v with
  | PStr raw => ret (caiyun_get_day raw)
  | _ => raise AttributeError
  end.

(** [pick], the inner function of [parse]. *)
Definition pick (unit : pyval) : res pyval :=
  has_value <- Py.contains "value" unit ;;
  if has_value then Py.getitem unit "value"
  else
    has_avg <- Py.contains "avg" unit ;;
    if has_avg then Py.getitem unit "avg"
    else raise ValueError.

(** [source[name][i]] *)
Definition column (source : pyval) (name : string) (i : nat)
  : res pyval :=
  series <- Py.getitem source name ;;
  Py.index series i.

(** The timestamp of one entry, lines 240-245. *)
Definition entry_time (precipitation : pyval) : res struct_time :=
  has_datetime <- Py.contains "datetime" precipitation ;;
  if has_datetime then
    stamp <- Py.getitem precipitation "datetime" ;;
    py_timetuple stamp
  else
    has_date <- Py.contains "date" precipitation ;;
    if has_date then
      stamp <- Py.getitem precipitation "date" ;;
      py_timetuple stamp
    else raise ValueError.

(** One turn of the loop of [parse]: the record appended for index [i]. *)
Definition parse_entry (source : pyval) (effect : WeatherEffectiveness)
    (i : nat) : res Weather :=
  precipitation <- column source "precipitation" i ;;
  time <- entry_time precipitation ;;
  temperature_unit <- column source "temperature" i ;;
  temperature <- pick temperature_unit ;;
  humidity_unit <- column source "humidity" i ;;
  humidity <- pick humidity_unit ;;
  skycon_unit <- column source "skycon" i ;;
  sky_con <- pick skycon_unit ;;
  pressure_unit <- column source "pressure" i ;;
  pressure <- pick pressure_unit ;;
  day <- py_get_day sky_con ;;
  ret {| time := time; effect := effect; day := day;
         temperature := temperature; humidity := humidity;
         pressure := pressure; uv_index := (-1)%Z |}.

(** The loop of [parse] over the indices still to visit; [target_set]
    grows at its end, as [append] does. *)
Fixpoint parse_loop (source : pyval) (effect : WeatherEffectiveness)
    (indices : list nat) (target_set : list Weather)
  : res (list Weather) :=
  match indices with
  | [] => ret target_set
  | i :: rest =>
      w <- parse_entry source effect i ;;
      parse_loop source effect rest (target_set ++ [w])
  end.

(** [parse(target_set, source, effect)]; the list it returns is
    [target_set] after the call. *)
Definition parse (target_set : list Weather) (source : pyval)
    (effect : WeatherEffectiveness) : res (list Weather) :=
  series <- Py.getitem source "precipitation" ;;
  n <- Py.len series ;;
  parse_loop source effect (seq 0 n) target_set.

End Parsing.

Section Invalidate.
Local Open Scope res_scope.

(** [api_callback['result'][name]] *)
Definition result_section (api_callback : pyval) (name : string)
  : res pyval :=
  result <- Py.getitem api_callback "result" ;;
  Py.getitem result name.

(** The [Weather(...)] call of lines 217-225, its arguments evaluated
    in the order they are written; [now] is [pytime.localtime()]. *)
Definition current_record (now : struct_time) (result_realtime : pyval)
  : res Weather :=
  temperature <- Py.getitem result_realtime "temperature" ;;
  skycon <- Py.getitem result_realtime "skycon" ;;
  day <- py_get_day skycon ;;
  humidity <- Py.getitem result_realtime "humidity" ;;
  raw_pressure <- Py.getitem result_realtime "pressure" ;;
  pressure <- Py.truediv raw_pressure 100 ;;
  life_index <- Py.getitem result_realtime "life_index" ;;
  ultraviolet <- Py.getitem life_index "ultraviolet" ;;
  index <- Py.getitem ultraviolet "index" ;;
  uv_index <- py_int index ;;
  ret {| time := now; effect := CURRENT; day := day;
         temperature := temperature; humidity := humidity;
         pressure := pressure; uv_index := uv_index |}.

(** Lines 213-261: everything [invalidate] does with the body of an
    OK response. *)
Definition parse_body (body : string) : M (list Weather) :=
  (api_callback <- lift (json_loads body) ;;
   result_realtime <- lift (result_section api_callback "realtime") ;;
   result_hourly <- lift (result_section api_callback "hourly") ;;
   result_daily <- lift (result_section api_callback "daily") ;;
   now <- pytime_localtime ;;
   current_weather <- lift (current_record now result_realtime) ;;
   hourly_weather <- lift (parse [] result_hourly HOURLY) ;;
   daily_weather <- lift (parse [] result_daily DAILY) ;;
   retM ([current_weather] ++ hourly_weather ++ daily_weather)%list)%world.

Definition weather_query : string :=
  "/weather?dailysteps=3&hourlysteps=24&minutely=false".

(** [CaiYunWeatherProvider.invalidate] *)
Definition CaiYun_invalidate (self : CaiYunWeatherProvider)
  : M (list Weather) :=
  (response <- requests_get (get_api_url self ++ weather_query) ;;
   if negb (ok response) then raiseM IOError
   else parse_body (text response))%world.

(** [get_weather] on a [CaiYunWeatherProvider]: the inherited method,
    with [invalidate] bound to the override. *)
Definition CaiYun_get_weather (self : CaiYunWeatherProvider) (w : World)
  : Outcome :=
  Cached_get_weather (CaiYun_invalidate self) (caiyun_base self) w.

(** The object after such a call. *)
Definition CaiYun_after (self : CaiYunWeatherProvider) (o : Outcome)
  : CaiYunWeatherProvider :=
  {| caiyun_base := self_after o; api_key := api_key self |}.

End Invalidate.

End Providers.

(** ** Reading the specification's words *)

(** [result_realtime['life_index']['ultraviolet']['index']], the field the
    specification calls the nested life-index ultraviolet field. *)
Definition ultraviolet_field (result_realtime : pyval) : res pyval :=
  (life_index <- Py.getitem result_realtime "life_index" ;;
   ultraviolet <- Py.getitem life_index "ultraviolet" ;;
   Py.getitem ultraviolet "index")%res.

(** The integer nearest to a rational; a half goes up. Used only to
    compare with what [int] does. *)
Definition nearest_integer (q : Q) : Z := Qfloor (q + (1 # 2)).

(** What [parse] appends: a record of the bucket asked for, with the
    sentinel for its UV index. *)
Definition forecast_of `{PyRuntime} (e : WeatherEffectiveness) (x : Weather)
  : Prop :=
  effect x = e /\ uv_index x = (-1)%Z.

(** Position of a bucket in the order current, hourly, daily. *)
Definition bucket_rank (e : WeatherEffectiveness) : nat :=
  match e with
  | CURRENT => 0
  | HOURLY => 1
  | DAILY => 2
  | ANY => 3
  end.

(** [a] may come before [b] in a list ordered current to future. *)
Definition rank_le `{PyRuntime} (a b : Weather) : Prop :=
  (bucket_rank (effect a) <= bucket_rank (effect b))%nat.

(** ** Sample data *)

Module Samples.

(** A time stamp that remembers where it came from. *)
Inductive stamp : Type :=
| Local (t : Q)
| Iso (s : string).

(** A runtime in which [json.loads] reads every body as [payload]. *)
Definition runtime (payload : pyval) : PyRuntime :=
  {| struct_time := stamp;
     localtime := Local;
     isoformat_timetuple := fun s => Some (Iso s);
     int_of_str := fun _ => None;
     json_loads := fun _ => inr payload;
     format_float := fun _ => "0.0" |}.

Definition num (n : Z) (d : positive) : pyval := PFloat (Finite (n # d)).

Definition realtime (pressure uv : pyval) : pyval :=
  PDict [("status", PStr "ok");
         ("temperature", num 51 2);
         ("humidity", num 3 5);
         ("skycon", PStr "CLOUDY");
         ("pressure", pressure);
         ("life_index",
           PDict [("ultraviolet",
                    PDict [("index", uv); ("desc", PStr "weak")])])].

Definition at_hour (v : pyval) : pyval :=
  PDict [("datetime", PStr "2024-05-01T10:00+08:00"); ("value", v)].

Definition hourly : pyval :=
  PDict [("status", PStr "ok");
         ("precipitation", PList [at_hour (PInt 0); at_hour (num 1 2)]);
         ("temperature", PList [at_hour (PInt 24); at_hour (num 47 2)]);
         ("humidity", PList [at_hour (num 3 5); at_hour (num 7 10)]);
         ("skycon",
           PList [at_hour (PStr "light_rain"); at_hour (PStr "thundersnow")]);
         ("pressure", PList [at_hour (PInt 101300); at_hour (PInt 101280)])].

Definition on_day (v : pyval) : pyval :=
  PDict [("date", PStr "2024-05-01T00:00+08:00");
         ("max", PInt 9); ("min", PInt 1); ("avg", v)].

Definition daily : pyval :=
  PDict [("status", PStr "ok");
         ("precipitation", PList [on_day (PInt 5)]);
         ("temperature", PList [on_day (PInt 20)]);
         ("humidity", PList [on_day (num 1 2)]);
         ("skycon",
           PList [PDict [("date", PStr "2024-05-01T00:00+08:00");
                         ("value", PStr "PARTLY_CLOUDY_DAY")]]);
         ("pressure", PList [on_day (PInt 101000)])].

Definition payload (pressure uv : pyval) : pyval :=
  PDict [("status", PStr "ok");
         ("result",
           PDict [("realtime", realtime pressure uv);
                  ("hourly", hourly);
                  ("daily", daily)])].

(** A world whose clock reads [start], [start + step], ... and whose
    server gives the same answer to every request. *)
Definition world (start step : Q) (answer : res Response) : World :=
  {| clock := fun n => start + inject_Z (Z.of_nat n) * step;
     reads := 0;
     upstream := fun _ => answer;
     sent := [] |}.

Definition good_response : Response := {| ok := true; text := "{...}" |}.
Definition bad_response : Response := {| ok := false; text := "{...}" |}.

Definition shanghai : Location :=
  {| latitude := 31 # 1; longitude := 121 # 1;
     friendly_name := Some "Shanghai" |}.

(** The payload of the examples: 101325 Pa, UV index 4.7. *)
Definition standard : pyval := payload (PInt 101325) (num 47 10).

Definition rt : PyRuntime := runtime standard.
#[local] Existing Instance rt.

(** A runtime whose [json.loads] rejects every body. *)
Definition deaf : PyRuntime :=
  {| struct_time := stamp;
     localtime := Local;
     isoformat_timetuple := fun s => Some (Iso s);
     int_of_str := fun _ => None;
     json_loads := fun _ => inl ValueError;
     format_float := fun _ => "0.0" |}.

Definition provider : @CaiYunWeatherProvider rt :=
  CaiYunWeatherProvider_init shanghai "KEY" 3600.

Definition start : World := world 1000 1 (inr good_response).

Definition request : string :=
  "https://api.caiyunapp.com/v2.6/KEY/0.0,0.0/weather?dailysteps=3&hourlysteps=24&minutely=false".

(** [start] after one request and one reading of the clock. *)
Definition served : World :=
  {| clock := clock start; reads := 1;
     upstream := upstream start; sent := [request] |}.

(** What [invalidate] returns on [standard]. *)
Definition refreshed : list (@Weather rt) :=
  [ {| time := Local 1000; effect := CURRENT; day := CLOUDY;
       temperature := num 51 2; humidity := num 3 5;
       pressure := num 4053 4; uv_index := 4 |};
    {| time := Iso "2024-05-01T10:00+08:00"; effect := HOURLY;
       day := LIGHTLY_RAINY;
       temperature := PInt 24; humidity := num 3 5;
       pressure := PInt 101300; uv_index := -1 |};
    {| time := Iso "2024-05-01T10:00+08:00"; effect := HOURLY;
       day := UNKNOWN;
       temperature := num 47 2; humidity := num 7 10;
       pressure := PInt 101280; uv_index := -1 |};
    {| time := Iso "2024-05-01T00:00+08:00"; effect := DAILY;
       day := CLOUDY;
       temperature := PInt 20; humidity := num 1 2;
       pressure := PInt 101000; uv_index := -1 |} ].

(** A clock that gives the listed readings, then stays at the last. *)
Definition readings (l : list Q) : nat -> Q := fun n => nth n l (last l 0).

(** The same provider with a cache that lives 20 seconds. *)
Definition provider20 : @CaiYunWeatherProvider rt :=
  CaiYunWeatherProvider_init shanghai "KEY" 20.

(** An afternoon in which the clock is read at these six moments and
    the server always answers. *)
Definition afternoon : World :=
  {| clock := readings [1000; 1001; 1019; 1021; 1021; 1022];
     reads := 0;
     upstream := fun _ => inr good_response;
     sent := [] |}.

(** A world whose server answers every request with a non-OK status. *)
Definition outage : World := world 1000 1 (inr bad_response).

(** [refreshed], built when the clock read [t]. *)
Definition refreshed_at (t : Q) : list (@Weather rt) :=
  match refreshed with
  | current :: forecast =>
      {| time := Local t; effect := effect current; day := day current;
         temperature := temperature current; humidity := humidity current;
         pressure := pressure current; uv_index := uv_index current |}
      :: forecast
  | [] => []
  end.

End Samples.

(** ** Presentation helpers *)

Module PyText.

(** [c.upper()] on one byte. *)
Definition upper_ascii (c : ascii) : ascii :=
  let n := N_of_ascii c in
  if ((97 <=? n) && (n <=? 122))%N then ascii_of_N (n - 32) else c.

(** [s.capitalize()]: the first character in upper case, the others in
    lower case. *)
Definition capitalize (s : string) : string :=
  match s with
  | EmptyString => EmptyString
  | String c rest => String (upper_ascii c) (PyStr.lower rest)
  end.

(** [s.replace(old, new)] for an [old] of one character. *)
Fixpoint replace (old : ascii) (new : string) (s : string) : string :=
  match s with
  | EmptyString => EmptyString
  | String c rest =>
      if Ascii.eqb c old then new ++ replace old new rest
      else String c (replace old new rest)
  end.

End PyText.

(** [day.name], the name of the member of the enumeration. *)
Definition Day_name (day : Day) : string :=
  match day with
  | CLEAR => "CLEAR"
  | CLOUDY => "CLOUDY"
  | LIGHTLY_RAINY => "LIGHTLY_RAINY"
  | RAINY => "RAINY"
  | HEAVILY_RAINY => "HEAVILY_RAINY"
  | SNOWY_RAINY => "SNOWY_RAINY"
  | LIGHTLY_SNOWY => "LIGHTLY_SNOWY"
  | SNOWY => "SNOWY"
  | HEAVILY_SNOWY => "HEAVILY_SNOWY"
  | HAZY => "HAZY"
  | FOGGY => "FOGGY"
  | DUSTY => "DUSTY"
  | SANDY => "SANDY"
  | WINDY => "WINDY"
  | UNKNOWN => "UNKNOWN"
  end.

(** [get_day_name] *)
Definition get_day_name (day : Day) : string :=
  PyText.capitalize (PyText.replace "_" " " (Day_name day)).

(** What [get_weather_icon] asks of the [resources] module. *)
Inductive image_request : Type :=
| get_image (name : string)
| get_image_tint (name : string) (tint : Z).

(** [get_weather_icon] *)
Definition get_weather_icon (day : Day) : image_request :=
  if Day_eq_dec day CLEAR then get_image_tint "weather-sunny" 100
  else if Day_eq_dec day CLOUDY then get_image "weather-cloudy"
  else if Day_eq_dec day RAINY then get_image "weather-rainy"
  else if Day_eq_dec day LIGHTLY_RAINY then get_image "weather-rainy"
  else if Day_eq_dec day HEAVILY_RAINY then get_image "weather-pouring"
  else if Day_eq_dec day SNOWY then get_image "weather-snowy"
  else if Day_eq_dec day LIGHTLY_SNOWY then get_image "weather-snowy"
  else if Day_eq_dec day HEAVILY_SNOWY then get_image "weather-snowy-heavy"
  else if Day_eq_dec day SNOWY_RAINY then get_image "weather-snowy-rainy"
  else if Day_eq_dec day WINDY then get_image "weather-windy"
  else if Day_eq_dec day HAZY then get_image "weather-hazy"
  else if Day_eq_dec day FOGGY then get_image "weather-fog"
  else if Day_eq_dec day DUSTY then get_image "weather-dust"
  else get_image "weather-alert".

(** [a == b] on two buckets. *)
Definition effect_eqb (a b : WeatherEffectiveness) : bool :=
  if WeatherEffectiveness_eq_dec a b then true else false.

(** The fields of a [time.struct_time] that [WeatherTrendView.label]
    reads. *)
Class TimeFields `{PyRuntime} : Type := {
  tm_hour : struct_time -> Z;
  tm_yday : struct_time -> Z;
  tm_year : struct_time -> Z
}.

Section Views.
Context `{PyRuntime}.

(** [next(weather for weather in ws if weather.effect == effect)], the
    record that [LargeWeatherView.refresh] shows out of the list [ws] the
    provider returned; [None] stands for [StopIteration]. *)
Definition Large_select (effect_ : WeatherEffectiveness) (ws : list Weather)
  : option Weather :=
  find (fun weather => effect_eqb (effect weather) effect_) ws.

(** The same for [MiniWeatherView.refresh], whose filter lets every record
    through when the view asks for [ANY]. *)
Definition Mini_select (effect_ : WeatherEffectiveness) (ws : list Weather)
  : option Weather :=
  find (fun w => effect_eqb effect_ ANY || effect_eqb (effect w) effect_) ws.

(** The record shown by the [MiniWeatherView] that
    [WeatherTrendView.__get_icon_view] builds around one record: a view on
    [DirectWeatherProvider(weather)] asking for [ANY]. *)
Definition icon_view_record (weather : Weather) : option Weather :=
  Mini_select ANY
    (Direct_get_weather (DirectWeatherProvider_init weather test_land)).

(** [WeatherTrendView.label] *)
Definition label `{!TimeFields} (w : Weather) : M Z :=
  (current_time <- pytime_localtime ;;
   retM (tm_hour (time w) - tm_hour current_time
         + 24 * (tm_yday (time w) - tm_yday current_time)
         + 365 * (tm_year (time w) - tm_year current_time))%Z)%world.

(** The list that [WeatherTrendView.refresh] hands to [set_data]: the
    comprehension over the provider's list [ws], [value] being the
    callable given to the view. *)
Fixpoint trend_data `{!TimeFields} {V : Type} (value : Weather -> res V)
    (effect_ : WeatherEffectiveness) (ws : list Weather)
  : M (list (Z * V)) :=
  match ws with
  | [] => retM []
  | w :: rest =>
      if effect_eqb effect_ ANY || effect_eqb (effect w) effect_
      then (x <- label w ;;
            y <- lift (value w) ;;
            points <- trend_data value effect_ rest ;;
            retM ((x, y) :: points))%world
      else trend_data value effect_ rest
  end.

(** *** Requests *)

(** The URL that [invalidate] requests. *)
Definition request_url (self : CaiYunWeatherProvider) : string :=
  get_api_url self ++ weather_query.

(** The world once [invalidate] has sent its request. *)
Definition requested (self : CaiYunWeatherProvider) (w : World) : World :=
  {| clock := clock w; reads := reads w; upstream := upstream w;
     sent := request_url self :: sent w |}.

(** *** Sequences of calls *)

(** Calls of [get_weather] on one cached provider, one in each of the
    listed worlds, the object passing from each call to the next. *)
Fixpoint Cached_calls (invalidate : M (list Weather))
    (self : CachedWeatherProvider) (worlds : list World) : list Outcome :=
  match worlds with
  | [] => []
  | w :: rest =>
      let out := Cached_get_weather invalidate self w in
      out :: Cached_calls invalidate (self_after out) rest
  end.

(** The states a cached provider passes through: as constructed, then
    after any call of [get_weather], in any world. *)
Inductive reachable (invalidate : M (list Weather)) (location : Location)
    (temperature_unit : TemperatureUnit) (cache_invalidate_interval : Q)
  : CachedWeatherProvider -> Prop :=
| reachable_init :
    reachable invalidate location temperature_unit cache_invalidate_interval
      (CachedWeatherProvider_init location temperature_unit
                                  cache_invalidate_interval)
| reachable_call (self : CachedWeatherProvider) (w : World) :
    reachable invalidate location temperature_unit cache_invalidate_interval
      self ->
    reachable invalidate location temperature_unit cache_invalidate_interval
      (self_after (Cached_get_weather invalidate self w)).

End Views.

(** ** More sample data *)

Module Gallery.
Import Samples.
#[local] Existing Instance rt.

(** The two records [parse] makes of [hourly]. *)
Definition hourly_records : list (@Weather rt) := firstn 2 (tl refreshed).

(** An hourly section whose temperature series stops one entry short. *)
Definition ragged : pyval :=
  PDict [("precipitation", PList [at_hour (PInt 0); at_hour (num 1 2)]);
         ("temperature", PList [at_hour (PInt 24)]);
         ("humidity", PList [at_hour (num 3 5); at_hour (num 7 10)]);
         ("skycon",
           PList [at_hour (PStr "light_rain"); at_hour (PStr "fog")]);
         ("pressure", PList [at_hour (PInt 101300); at_hour (PInt 101280)])].

(** The provider of the samples with a cache that lives no time. *)
Definition uncached : @CaiYunWeatherProvider rt :=
  CaiYunWeatherProvider_init shanghai "KEY" 0.

(** The provider of the samples after a first call in [start]: its cache
    holds [refreshed_at 1001], stamped 1000. *)
Definition warm : @CachedWeatherProvider rt :=
  set_cache (set_update_time (caiyun_base provider) 1000)
            (refreshed_at 1001).

(** [start] after that first call. *)
Definition later : World :=
  {| clock := clock start; reads := 2;
     upstream := upstream start; sent := [request] |}.

End Gallery.

(** * Properties *)

(** ** Strings *)

Module PyStrFacts.
Import PyStr.

Lemma starts_with_iff (needle hay : string) :
  starts_with needle hay = true <-> exists rest, hay = needle ++ rest.
Proof.
  revert hay; induction needle as [|a n IH]; intros hay; simpl.
  - split; [intros _; now exists hay | reflexivity].
  - destruct hay as [|b h].
    + split; [discriminate | intros [rest E]; discriminate E].
    + rewrite andb_true_iff, Ascii.eqb_eq, IH. split.
      * intros [-> [rest ->]]. now exists rest.
      * intros [rest E]. injection E as -> ->. split; [reflexivity | now exists rest].
Qed.

(** [contains] finds exactly the substrings. *)
Lemma contains_iff (needle hay : string) :
  contains needle hay = true <->
  exists before after, hay = before ++ needle ++ after.
Proof.
  induction hay as [|c h IH]; simpl.
  - rewrite orb_false_r, starts_with_iff. split.
    + intros [rest E]. now exists EmptyString, rest.
    + intros [[|b before] [after E]]; [now exists after | discriminate E].
  - rewrite orb_true_iff, starts_with_iff, IH. split.
    + intros [[rest E] | [before [after E]]].
      * now exists EmptyString, rest.
      * exists (String c before), after. simpl. now rewrite E.
    + intros [[|b before] [after E]].
      * left. now exists after.
      * right. injection E as _ E. now exists before, after.
Qed.

Lemma lower_ascii_idempotent (c : ascii) :
  lower_ascii (lower_ascii c) = lower_ascii c.
Proof.
  destruct c as [[] [] [] [] [] [] [] []]; reflexivity.
Qed.

Lemma lower_idempotent (s : string) : lower (lower s) = lower s.
Proof.
  induction s as [|c s IH]; simpl; [reflexivity|].
  now rewrite lower_ascii_idempotent, IH.
Qed.

Lemma lower_length (s : string) : String.length (lower s) = String.length s.
Proof. induction s as [|c s IH]; simpl; congruence. Qed.

End PyStrFacts.

(** ** Sky-condition classification *)

Lemma first_substring_coarse (code : string) :
  first_substring coarse_categories code =
  if PyStr.contains "clear" code then Some CLEAR
  else if PyStr.contains "cloudy" code then Some CLOUDY
  else if PyStr.contains "haze" code then Some HAZY
  else None.
Proof.
  unfold first_substring, coarse_categories; simpl.
  repeat match goal with
         | |- context [PyStr.contains ?p code] =>
             destruct (PyStr.contains p code); simpl; try reflexivity
         end.
Qed.

Lemma classify_spec_unfold (raw : string) :
  caiyun_get_day raw =
  match first_substring coarse_categories (PyStr.lower raw) with
  | Some d => d
  | None =>
      match exact_lookup exact_codes (PyStr.lower raw) with
      | Some d => d
      | None => UNKNOWN
      end
  end.
Proof.
  rewrite first_substring_coarse. unfold caiyun_get_day.
  set (code := PyStr.lower raw).
  repeat match goal with
         | |- context [PyStr.contains ?p code] =>
             destruct (PyStr.contains p code); try reflexivity
         end.
  unfold exact_lookup, exact_codes; simpl.
  repeat match goal with
         | |- context [String.eqb code ?k] =>
             destruct (String.eqb code k); simpl; try reflexivity
         end.
Qed.

(** The three coarse categories, in terms of substrings. *)
Lemma caiyun_get_day_clear (raw : string) :
  (exists before after, PyStr.lower raw = before ++ "clear" ++ after) ->
  caiyun_get_day raw = CLEAR.
Proof.
  intros Hsub. apply PyStrFacts.contains_iff in Hsub.
  unfold caiyun_get_day. now rewrite Hsub.
Qed.

Lemma caiyun_get_day_cloudy (raw : string) :
  PyStr.contains "clear" (PyStr.lower raw) = false ->
  (exists before after, PyStr.lower raw = before ++ "cloudy" ++ after) ->
  caiyun_get_day raw = CLOUDY.
Proof.
  intros Hclear Hsub. apply PyStrFacts.contains_iff in Hsub.
  unfold caiyun_get_day. now rewrite Hclear, Hsub.
Qed.

Lemma caiyun_get_day_haze (raw : string) :
  PyStr.contains "clear" (PyStr.lower raw) = false ->
  PyStr.contains "cloudy" (PyStr.lower raw) = false ->
  (exists before after, PyStr.lower raw = before ++ "haze" ++ after) ->
  caiyun_get_day raw = HAZY.
Proof.
  intros Hclear Hcloudy Hsub. apply PyStrFacts.contains_iff in Hsub.
  unfold caiyun_get_day. now rewrite Hclear, Hcloudy, Hsub.
Qed.

(** A code with none of the three substrings and outside the table is
    UNKNOWN. *)
Lemma caiyun_get_day_unmatched (raw : string) :
  first_substring coarse_categories (PyStr.lower raw) = None ->
  exact_lookup exact_codes (PyStr.lower raw) = None ->
  caiyun_get_day raw = UNKNOWN.
Proof.
  intros Hcoarse Hexact. rewrite classify_spec_unfold.
  now rewrite Hcoarse, Hexact.
Qed.

(** C3. [__caiyun_get_day] is a total function of the raw string: it
    lower-cases it, looks for "clear", "cloudy" and "haze" as substrings,
    in this order, then for the exact codes of the table, and answers
    UNKNOWN otherwise. It does so whatever the case of the input, and
    "CLOUDY", "light_rain", "moderate_rain", "heavy_rain", "storm_rain"
    and "thundersnow" classify as the specification lists them. *)
Theorem caiyun_get_day_classification :
  (forall raw, caiyun_get_day raw = classify_spec raw) /\
  (forall raw, caiyun_get_day (PyStr.lower raw) = caiyun_get_day raw) /\
  caiyun_get_day "CLOUDY" = CLOUDY /\
  caiyun_get_day "light_rain" = LIGHTLY_RAINY /\
  caiyun_get_day "moderate_rain" = RAINY /\
  caiyun_get_day "heavy_rain" = HEAVILY_RAINY /\
  caiyun_get_day "storm_rain" = HEAVILY_RAINY /\
  caiyun_get_day "thundersnow" = UNKNOWN.
Proof.
  split; [|split].
  - intros raw. unfold classify_spec. apply classify_spec_unfold.
  - intros raw. unfold caiyun_get_day.
    now rewrite PyStrFacts.lower_idempotent.
  - repeat split; reflexivity.
Qed.

(** ** Exceptions and effects *)

Lemma bind_inr {A B} (m : res A) (k : A -> res B) (b : B) :
  bind m k = inr b -> exists a, m = inr a /\ k a = inr b.
Proof.
  destruct m as [e|a]; simpl; [discriminate|]. intros E. now exists a.
Qed.

Lemma bindM_inr {A B} (m : M A) (k : A -> M B) (w w' : World) (b : B) :
  bindM m k w = (inr b, w') ->
  exists a w1, m w = (inr a, w1) /\ k a w1 = (inr b, w').
Proof.
  unfold bindM. destruct (m w) as [[e|a] w1]; [discriminate|].
  intros E. now exists a, w1.
Qed.

Lemma lift_inr {A} (r : res A) (w w' : World) (a : A) :
  lift r w = (inr a, w') -> r = inr a /\ w' = w.
Proof. unfold lift. intros E. injection E as -> ->. now split. Qed.

(** Take a successful sequence of calls apart, one call after the other. *)
Ltac split_bind E :=
  let a := fresh "a" in
  let Ea := fresh "E" a in
  apply bind_inr in E; destruct E as [a [Ea E]].

Ltac split_bindM E :=
  let a := fresh "a" in
  let w := fresh "w" in
  let Ea := fresh "E" a in
  apply bindM_inr in E; destruct E as [a [w [Ea E]]].

(** ** Dictionaries and [pick] *)

Lemma existsb_find {A} (f : A -> bool) (l : list A) :
  existsb f l = match find f l with Some _ => true | None => false end.
Proof.
  induction l as [|x l IH]; simpl; [reflexivity|].
  destruct (f x); [reflexivity | exact IH].
Qed.

(** [k in d] says whether [d] holds something under [k]. *)
Lemma contains_lookup (k : string) (d : list (string * pyval)) :
  Py.contains k (PDict d) =
  inr (match Py.lookup k d with Some _ => true | None => false end).
Proof.
  simpl. unfold ret, Py.lookup. rewrite existsb_find.
  now destruct (find (Py.has_key k) d).
Qed.

(** C5. On a metric entry, [pick] returns what the entry holds under
    "value" if it holds something there, else what it holds under "avg",
    and raises [ValueError] when it has neither key; the entry that has
    "avg" alone, with 5, gives 5, and the empty entry raises. *)
Theorem pick_value_then_avg :
  (forall d,
     pick (PDict d) =
     match Py.lookup "value" d with
     | Some v => inr v
     | None =>
         match Py.lookup "avg" d with
         | Some v => inr v
         | None => inl ValueError
         end
     end) /\
  pick (PDict [("avg", PInt 5)]) = inr (PInt 5) /\
  pick (PDict []) = inl ValueError.
Proof.
  split; [|split; reflexivity].
  intros d. unfold pick. rewrite !contains_lookup. simpl.
  destruct (Py.lookup "value" d); [reflexivity|].
  destruct (Py.lookup "avg" d); reflexivity.
Qed.

(** ** The parser of the hourly and daily series *)

Section ParserFacts.
Context `{PyRuntime}.

Lemma parse_entry_forecast source e i x :
  parse_entry source e i = inr x -> forecast_of e x.
Proof.
  unfold parse_entry. intros E.
  repeat split_bind E.
  injection E as <-. split; reflexivity.
Qed.

Lemma parse_loop_appends source e indices :
  forall target_set out,
    parse_loop source e indices target_set = inr out ->
    exists new,
      out = (target_set ++ new)%list /\
      List.length new = List.length indices /\
      Forall (forecast_of e) new.
Proof.
  induction indices as [|i rest IH]; simpl; intros target_set out E.
  - injection E as <-. exists []. rewrite app_nil_r. now repeat split.
  - split_bind E. apply IH in E. destruct E as [new [-> [Hlen Hall]]].
    exists (a :: new). rewrite <- app_assoc. simpl.
    repeat split; [congruence|].
    constructor; [|exact Hall]. eapply parse_entry_forecast; eauto.
Qed.

Lemma parse_forecast source e out :
  parse [] source e = inr out -> Forall (forecast_of e) out.
Proof.
  unfold parse. intros E. repeat split_bind E.
  apply parse_loop_appends in E. destruct E as [new [-> [_ Hall]]].
  exact Hall.
Qed.

Lemma current_record_fields now realtime c :
  current_record now realtime = inr c ->
  effect c = CURRENT /\
  (exists p, Py.getitem realtime "pressure" = inr p /\
             Py.truediv p 100 = inr (pressure c)) /\
  (exists index, ultraviolet_field realtime = inr index /\
                 py_int index = inr (uv_index c)).
Proof.
  unfold current_record. intros E. repeat split_bind E.
  injection E as <-. simpl. split; [reflexivity|]. split.
  - now exists a3.
  - exists a7. split; [|assumption].
    unfold ultraviolet_field. rewrite Ea5; simpl. now rewrite Ea6.
Qed.

(** A successful refresh, taken apart. *)
Lemma invalidate_inr self w ws w' :
  CaiYun_invalidate self w = (inr ws, w') ->
  exists response api_callback realtime hourly daily current hs ds,
    upstream w (List.length (sent w)) = inr response /\
    ok response = true /\
    json_loads (text response) = inr api_callback /\
    result_section api_callback "realtime" = inr realtime /\
    result_section api_callback "hourly" = inr hourly /\
    result_section api_callback "daily" = inr daily /\
    current_record (localtime (now w)) realtime = inr current /\
    parse [] hourly HOURLY = inr hs /\
    parse [] daily DAILY = inr ds /\
    ws = ([current] ++ hs ++ ds)%list.
Proof.
  unfold CaiYun_invalidate. intros E. split_bindM E.
  unfold requests_get in Ea. injection Ea as Ea <-.
  destruct (ok a) eqn:Hok; simpl in E; [|discriminate].
  unfold parse_body in E.
  repeat (split_bindM E;
          try match goal with
              | Hl : lift _ _ = (inr _, _) |- _ =>
                  apply lift_inr in Hl; destruct Hl as [Hl ->]
              end).
  unfold pytime_localtime in Ea4. injection Ea4 as <- <-.
  unfold retM in E. injection E as <- <-.
  exists a, a0, a1, a2, a3, a5, a6, a7.
  repeat split; solve [assumption | reflexivity].
Qed.

End ParserFacts.

Lemma invalidate_standard :
  @CaiYun_invalidate Samples.rt Samples.provider Samples.start =
  (inr Samples.refreshed, Samples.served).
Proof. vm_compute. reflexivity. Qed.

(** ** Truncation *)

Lemma trunc_range (q : Q) :
  (-1 < q)%Q -> (q < 11)%Q -> (0 <= Py.trunc q <= 10)%Z.
Proof.
  destruct q as [n d]. unfold Qlt, Py.trunc; simpl. intros Hlo Hhi.
  destruct (Z.neg_nonneg_cases n) as [Hneg|Hpos].
  - replace (n ÷ Z.pos d)%Z with 0%Z; [lia|].
    symmetry. rewrite <- (Z.opp_involutive n), Z.quot_opp_l by lia.
    rewrite Z.quot_small; lia.
  - split.
    + apply Z.quot_pos; lia.
    + rewrite Z.quot_div_nonneg by lia.
      enough (n / Z.pos d < 11)%Z by lia.
      apply Z.div_lt_upper_bound; lia.
Qed.

Lemma trunc_inject (z : Z) : Py.trunc (inject_Z z) = z.
Proof. unfold Py.trunc; simpl. apply Z.quot_1_r. Qed.

(** ** The refresh of the CaiYun provider *)

Section RefreshFacts.
Context `{PyRuntime}.

Lemma sorted_app (l1 l2 : list Weather) :
  StronglySorted rank_le l1 ->
  StronglySorted rank_le l2 ->
  (forall a b, In a l1 -> In b l2 -> rank_le a b) ->
  StronglySorted rank_le (l1 ++ l2).
Proof.
  intros S1 S2 Hcross. induction S1 as [|a l1 S1 IH Ha]; simpl.
  - exact S2.
  - constructor.
    + apply IH. intros x y Hx Hy. apply Hcross; [now right | exact Hy].
    + apply Forall_app. split; [exact Ha|].
      apply Forall_forall. intros y Hy. apply Hcross; [now left | exact Hy].
Qed.

Lemma sorted_same_bucket (e : WeatherEffectiveness) (l : list Weather) :
  Forall (forecast_of e) l -> StronglySorted rank_le l.
Proof.
  intros Hall. induction Hall as [|x l [Hx _] Hall IH]; constructor.
  - exact IH.
  - eapply Forall_impl; [|exact Hall].
    intros y [Hy _]. unfold rank_le. rewrite Hx, Hy. apply Nat.le_refl.
Qed.

Lemma sorted_buckets current hs ds :
  effect current = CURRENT ->
  Forall (forecast_of HOURLY) hs ->
  Forall (forecast_of DAILY) ds ->
  StronglySorted rank_le ([current] ++ hs ++ ds).
Proof.
  intros Hc Hh Hd. apply sorted_app.
  - repeat constructor.
  - apply sorted_app; [now apply sorted_same_bucket with HOURLY
                      |now apply sorted_same_bucket with DAILY|].
    intros a b Ha Hb. rewrite Forall_forall in Hh, Hd.
    destruct (Hh a Ha) as [Ea _], (Hd b Hb) as [Eb _].
    unfold rank_le. rewrite Ea, Eb. simpl. lia.
  - intros a b [<-|[]] _. unfold rank_le. rewrite Hc. apply Nat.le_0_l.
Qed.

(** C6. A successful refresh returns the CURRENT record, then the
    HOURLY records, then the DAILY records: the list is the
    concatenation of the three, and no record comes before one of an
    earlier bucket. *)
Theorem invalidate_current_hourly_daily self w ws w' :
  CaiYun_invalidate self w = (inr ws, w') ->
  exists current hourly daily,
    ws = ([current] ++ hourly ++ daily)%list /\
    effect current = CURRENT /\
    Forall (fun x => effect x = HOURLY) hourly /\
    Forall (fun x => effect x = DAILY) daily /\
    StronglySorted rank_le ws.
Proof.
  intros E. apply invalidate_inr in E.
  destruct E as (response & api & realtime & hourly & daily & current &
                 hs & ds & _ & _ & _ & _ & _ & _ & Hc & Hh & Hd & ->).
  apply current_record_fields in Hc. destruct Hc as [Hc _].
  apply parse_forecast in Hh, Hd.
  exists current, hs, ds. repeat split; try assumption.
  - eapply Forall_impl; [|exact Hh]. now intros x [Hx _].
  - eapply Forall_impl; [|exact Hd]. now intros x [Hx _].
  - now apply sorted_buckets.
Qed.

(** C7. When the response is not OK, the refresh raises [IOError] right
    after the request: nothing is parsed (whatever [json.loads] would
    make of the body), the clock is not read, no record is built. *)
Theorem invalidate_not_ok self w response :
  upstream w (List.length (sent w)) = inr response ->
  ok response = false ->
  CaiYun_invalidate self w =
  (inl IOError,
   {| clock := clock w; reads := reads w; upstream := upstream w;
      sent := (get_api_url self ++ weather_query) :: sent w |}).
Proof.
  intros Hresp Hok. unfold CaiYun_invalidate, bindM, requests_get.
  rewrite Hresp, Hok. reflexivity.
Qed.

End RefreshFacts.

(** ** Division in binary64 *)

Module Binary64Facts.
Import Binary64.

Lemma two_power_pos (k : Z) : 0 < 2 ^ k.
Proof. apply Qpower_0_lt. reflexivity. Qed.

Lemma two_power_plus (a b : Z) : 2 ^ (a + b) == 2 ^ a * 2 ^ b.
Proof. apply Qpower_plus. discriminate. Qed.

Lemma round_half_even_error (y : Q) :
  Qabs (inject_Z (round_half_even y) - y) <= 1 # 2.
Proof.
  unfold round_half_even.
  pose proof (Qfloor_le y) as Hlo. pose proof (Qlt_floor y) as Hhi.
  rewrite inject_Z_plus in Hhi. change (inject_Z 1) with 1 in Hhi.
  destruct (Qcompare_spec (y - inject_Z (Qfloor y)) (1 # 2)) as [E|L|G];
    [destruct (Z.even (Qfloor y))| |];
    rewrite ?inject_Z_plus; change (inject_Z 1) with 1;
    apply Qabs_Qle_condition; split; lra.
Qed.

Lemma round_half_even_integer (y : Q) (m : Z) :
  y == inject_Z m -> round_half_even y = m.
Proof.
  intros Hy. unfold round_half_even.
  assert (Hf : Qfloor y = m) by (rewrite Hy; apply Qfloor_Z).
  rewrite Hf.
  destruct (Qcompare_spec (y - inject_Z m) (1 # 2)) as [E|L|G].
  - exfalso. lra.
  - reflexivity.
  - exfalso. lra.
Qed.

(** Half a unit in the last place. *)
Lemma round_half_ulp (x : Q) :
  Qabs (round x - x) <= 2 ^ ulp_exponent x * (1 # 2).
Proof.
  unfold round. set (u := 2 ^ ulp_exponent x).
  assert (Hu : 0 < u) by apply two_power_pos.
  destruct (Qeq_bool x 0) eqn:Hz.
  - apply Qeq_bool_eq in Hz. rewrite Hz.
    setoid_replace (0 - 0) with 0 by ring. simpl. lra.
  - rewrite Qred_correct.
    setoid_replace (inject_Z (round_half_even (x / u)) * u - x)
      with ((inject_Z (round_half_even (x / u)) - x / u) * u)
      by (field; lra).
    rewrite Qabs_Qmult, (Qabs_pos u) by lra.
    rewrite (Qmult_comm u). apply Qmult_le_compat_r; [|lra].
    apply round_half_even_error.
Qed.

Lemma round_exact (x : Q) (m : Z) :
  x == inject_Z m * 2 ^ ulp_exponent x -> round x == x.
Proof.
  intros Hx. unfold round.
  assert (Hu : 0 < 2 ^ ulp_exponent x) by apply two_power_pos.
  destruct (Qeq_bool x 0) eqn:Hz.
  - apply Qeq_bool_eq in Hz. now rewrite Hz.
  - rewrite Qred_correct.
    rewrite (round_half_even_integer _ m).
    + now rewrite <- Hx.
    + rewrite Hx at 1. field. lra.
Qed.

Lemma Z_log2_bounds (n : Z) :
  (0 < n)%Z ->
  2 ^ Z.log2 n <= inject_Z n /\ inject_Z n < 2 * 2 ^ Z.log2 n.
Proof.
  intros Hn. destruct (Z.log2_spec n Hn) as [Hlo Hhi].
  pose proof (Z.log2_nonneg n) as Hl.
  rewrite <- (Zpower_Qpower 2 (Z.log2 n)) by exact Hl.
  split.
  - rewrite <- Zle_Qle. exact Hlo.
  - change 2 with (inject_Z 2) at 1. rewrite <- inject_Z_mult, <- Zlt_Qlt.
    rewrite Z.pow_succ_r in Hhi by exact Hl. exact Hhi.
Qed.

Lemma log2_floor_spec (x : Q) :
  0 < x -> 2 ^ log2_floor x <= x /\ x < 2 * 2 ^ log2_floor x.
Proof.
  intros Hx. destruct x as [n d].
  assert (Hn : (0 < n)%Z) by (unfold Qlt in Hx; simpl in Hx; lia).
  destruct (Z_log2_bounds n Hn) as [Hnlo Hnhi].
  destruct (Z_log2_bounds (Z.pos d) eq_refl) as [Hdlo Hdhi].
  unfold log2_floor; simpl Qnum; simpl Qden.
  set (ln := Z.log2 n) in *. set (ld := Z.log2 (Z.pos d)) in *.
  assert (HA : 0 < 2 ^ ln) by apply two_power_pos.
  assert (HB : 0 < 2 ^ ld) by apply two_power_pos.
  assert (Hk : 2 ^ (ln - ld) * 2 ^ ld == 2 ^ ln).
  { rewrite <- two_power_plus. now replace (ln - ld + ld)%Z with ln by lia. }
  assert (Hk1 : 2 * 2 ^ (ln - ld - 1) == 2 ^ (ln - ld)).
  { change 2 with (2 ^ 1) at 1. rewrite <- two_power_plus.
    now replace (1 + (ln - ld - 1))%Z with (ln - ld)%Z by lia. }
  assert (HP : 0 < 2 ^ (ln - ld)) by apply two_power_pos.
  assert (HP1 : 0 < 2 ^ (ln - ld - 1)) by apply two_power_pos.
  assert (Hd : 0 < inject_Z (Z.pos d)) by (rewrite <- (Zlt_Qlt 0); reflexivity).
  assert (Hxd : (n # d) * inject_Z (Z.pos d) == inject_Z n).
  { rewrite (Qmake_Qdiv n d). field. lra. }
  set (x := n # d) in *. set (n' := inject_Z n) in *.
  set (d' := inject_Z (Z.pos d)) in *.
  set (A := 2 ^ ln) in *. set (B := 2 ^ ld) in *.
  set (P := 2 ^ (ln - ld)) in *. set (P1 := 2 ^ (ln - ld - 1)) in *.
  assert (Hupper : x < 2 * P).
  { apply Qnot_le_lt. intros Hge.
    assert (2 * P * d' <= x * d') by (apply Qmult_le_compat_r; lra).
    assert (P * B <= P * d') by (apply Qmult_le_l; lra).
    lra. }
  assert (Hlower : P1 <= x).
  { apply Qnot_lt_le. intros Hlt.
    assert (x * d' < P1 * d') by (apply Qmult_lt_compat_r; lra).
    assert (P1 * d' < P1 * (2 * B)) by (apply Qmult_lt_l; lra).
    assert (P1 * (2 * B) == A) by (rewrite <- Hk, <- Hk1; ring).
    lra. }
  destruct (Qle_bool P x) eqn:Htest.
  - apply Qle_bool_iff in Htest. split; assumption.
  - assert (x < P).
    { apply Qnot_le_lt. intros Hle. apply Qle_bool_iff in Hle. congruence. }
    change (P1 <= x /\ x < 2 * P1). split; [exact Hlower | lra].
Qed.

(** In the normal range the result is within 2^-53 of the argument,
    relatively. *)
Lemma round_relative_error (x : Q) :
  2 ^ (-1022) <= Qabs x ->
  Qabs (round x - x) <= Qabs x * 2 ^ (-53).
Proof.
  intros Hnormal.
  assert (Hpos : 0 < Qabs x).
  { apply Qlt_le_trans with (2 ^ (-1022)); [apply two_power_pos | exact Hnormal]. }
  destruct (log2_floor_spec (Qabs x) Hpos) as [Hlo Hhi].
  set (L := log2_floor (Qabs x)) in *.
  assert (HL : (-1022 <= L)%Z).
  { destruct (Z.le_gt_cases (-1022) L) as [Hle|Hgt]; [exact Hle|].
    exfalso.
    assert (2 * 2 ^ L <= 2 ^ (-1022)).
    { change 2 with (2 ^ 1) at 1. rewrite <- two_power_plus.
      apply Qpower_le_compat_l; [lia | discriminate]. }
    lra. }
  apply Qle_trans with (2 ^ ulp_exponent x * (1 # 2));
    [apply round_half_ulp|].
  unfold ulp_exponent. fold L. rewrite Z.max_l by lia.
  replace (L - 52)%Z with (L + -52)%Z by lia.
  rewrite two_power_plus.
  setoid_replace (2 ^ L * 2 ^ (-52) * (1 # 2)) with (2 ^ L * 2 ^ (-53))
    by (change (2 ^ (-53)) with (2 ^ (-52) * (1 # 2)) ; ring).
  apply Qmult_le_compat_r; [exact Hlo|].
  apply Qlt_le_weak, two_power_pos.
Qed.

End Binary64Facts.

(** [Binary64.round] gives what the division of the Standard Library's
    [SpecFloat] gives, at 53 bits, on quotients of every kind: exact,
    inexact, negative, a tie, subnormal. *)
Lemma round_agrees_with_SpecFloat :
  Binary64.SF_quotient 101325 100 = Some (Binary64.round (101325 # 100)) /\
  Binary64.SF_quotient 101326 100 = Some (Binary64.round (101326 # 100)) /\
  Binary64.SF_quotient (-1) 3 = Some (Binary64.round (-1 # 3)) /\
  Binary64.SF_quotient (2 ^ 53 + 1) 1 =
    Some (Binary64.round (inject_Z (2 ^ 53 + 1))) /\
  Binary64.SF_quotient 1 (10 ^ 320) =
    Some (Binary64.round (1 / inject_Z (10 ^ 320))) /\
  Binary64.SF_quotient (10 ^ 400) 100 = None /\
  Binary64.overflows (Binary64.round (inject_Z (10 ^ 400) / 100)) = true.
Proof. vm_compute. repeat split. Qed.

(** [/ 100] on some payloads: 101326, the float nearest to 100173.09,
    the bool [True], an int beyond the floats, the smallest positive
    float. *)
Lemma truediv_examples :
  Py.truediv (PInt 101326) 100 =
    inr (PFloat (Finite (4456364607841239 # 4398046511104))) /\
  Py.truediv (PFloat (Finite (3441921163914117 # 34359738368))) 100 =
    inr (PFloat (Finite (2202829544905035 # 2199023255552))) /\
  Py.truediv (PBool true) 100 =
    inr (PFloat (Finite (5764607523034235 # 576460752303423488))) /\
  Py.truediv (PInt (10 ^ 400)) 100 = inl OverflowError /\
  Py.truediv (PFloat (Finite (2 ^ (-1074)))) 100 = inr (PFloat (Finite 0)) /\
  Py.truediv (PStr "101325") 100 = inl TypeError.
Proof. vm_compute. repeat split. Qed.

(** What [/ 100] makes of a JSON number. *)
Lemma truediv_number (p v : pyval) (q : Q) :
  Py.number_value p = Some q ->
  Py.truediv p 100 = inr v ->
  v = PFloat (Py.float_div (Finite q) 100) /\
  (Binary64.overflows (Binary64.round (q / 100)) = false ->
   v = PFloat (Finite (Binary64.round (q / 100)))).
Proof.
  destruct p as [| | z | [x| |] | | |]; simpl; try discriminate.
  - intros [= <-]. unfold Py.int_div.
    change (inject_Z (Z.pos 100)) with 100.
    destruct (Binary64.overflows (Binary64.round (inject_Z z / 100)));
      [discriminate|].
    intros [= <-]. split; [reflexivity | intros _; reflexivity].
  - intros [= <-] [= <-]. change (inject_Z (Z.pos 100)) with 100.
    split; [reflexivity|]. now intros ->.
Qed.

Lemma py_int_float `{PyRuntime} (q : Q) (z : Z) :
  py_int (PFloat (Finite q)) = inr z -> z = Py.trunc q.
Proof. simpl. now intros [= <-]. Qed.

Section RecordFacts.
Context `{PyRuntime}.

(** C8. The CURRENT record of a successful refresh stores the realtime
    pressure of the payload divided by 100, as [/] divides: for a number
    [q] the stored pressure is the float [q / 100], that is, whenever
    that quotient is in the range of the floats, the binary64 value
    nearest to the exact quotient, which is the exact quotient when that
    is a binary64 value and differs from it by at most one part in 2^53
    otherwise. For 101325 it is 1013.25. *)
Theorem invalidate_pressure_hPa self w ws w' :
  CaiYun_invalidate self w = (inr ws, w') ->
  exists response api_callback realtime p current forecast,
    upstream w (List.length (sent w)) = inr response /\
    json_loads (text response) = inr api_callback /\
    result_section api_callback "realtime" = inr realtime /\
    Py.getitem realtime "pressure" = inr p /\
    ws = current :: forecast /\
    effect current = CURRENT /\
    Py.truediv p 100 = inr (pressure current) /\
    (forall q, Py.number_value p = Some q ->
       pressure current = PFloat (Py.float_div (Finite q) 100) /\
       (Binary64.overflows (Binary64.round (q / 100)) = false ->
        exists r,
          pressure current = PFloat (Finite r) /\
          r = Binary64.round (q / 100) /\
          (2 ^ (-1022) <= Qabs (q / 100) ->
           Qabs (r - q / 100) <= Qabs (q / 100) * 2 ^ (-53)) /\
          (forall m : Z,
             q / 100 == inject_Z m * 2 ^ Binary64.ulp_exponent (q / 100) ->
             r == q / 100))) /\
    (p = PInt 101325 ->
       exists r, pressure current = PFloat (Finite r) /\ r == 1013.25).
Proof.
  intros E. apply invalidate_inr in E.
  destruct E as (response & api & realtime & hourly & daily & current &
                 hs & ds & Hr & _ & Hj & Hrt & _ & _ & Hc & _ & _ & ->).
  apply current_record_fields in Hc.
  destruct Hc as (Hc & (p & Hp & Hdiv) & _).
  exists response, api, realtime, p, current, (hs ++ ds)%list.
  do 7 (split; [assumption || reflexivity|]). split.
  - intros q Hq. destruct (truediv_number p _ q Hq Hdiv) as [Hfloat Hfinite].
    split; [exact Hfloat|]. intros Hrange.
    exists (Binary64.round (q / 100)).
    split; [now apply Hfinite|]. split; [reflexivity|]. split.
    + apply Binary64Facts.round_relative_error.
    + apply Binary64Facts.round_exact.
  - intros ->.
    destruct (truediv_number (PInt 101325) _ _ eq_refl Hdiv) as [_ Hfinite].
    eexists. split; [apply Hfinite; reflexivity|]. reflexivity.
Qed.

(** C4, as the code has it. In the list a successful refresh returns,
    every HOURLY and every DAILY record has the UV index -1, and the one
    CURRENT record, the first, has [int(x)] of the payload's nested
    life-index ultraviolet field [x]: an integer as it is, a float
    truncated toward zero. That index is between 0 and 10 when the field
    is a float strictly between -1 and 11. *)
Theorem invalidate_uv_index self w ws w' :
  CaiYun_invalidate self w = (inr ws, w') ->
  exists response api_callback realtime index current forecast,
    upstream w (List.length (sent w)) = inr response /\
    json_loads (text response) = inr api_callback /\
    result_section api_callback "realtime" = inr realtime /\
    ultraviolet_field realtime = inr index /\
    ws = current :: forecast /\
    effect current = CURRENT /\
    Forall (fun x => effect x = HOURLY \/ effect x = DAILY) forecast /\
    (forall x, In x ws -> effect x = HOURLY \/ effect x = DAILY ->
               uv_index x = (-1)%Z) /\
    py_int index = inr (uv_index current) /\
    (forall z, index = PInt z -> uv_index current = z) /\
    (forall q, index = PFloat (Finite q) ->
               uv_index current = Py.trunc q /\
               (-1 < q -> q < 11 -> (0 <= uv_index current <= 10)%Z)).
Proof.
  intros E. apply invalidate_inr in E.
  destruct E as (response & api & realtime & hourly & daily & current &
                 hs & ds & Hr & _ & Hj & Hrt & _ & _ & Hc & Hh & Hd & ->).
  apply current_record_fields in Hc.
  destruct Hc as (Hc & _ & (index & Hidx & Hint)).
  apply parse_forecast in Hh, Hd.
  assert (Hall : Forall (fun x => (effect x = HOURLY \/ effect x = DAILY) /\
                                  uv_index x = (-1)%Z) (hs ++ ds)).
  { apply Forall_app. split.
    - eapply Forall_impl; [|exact Hh]. intros x [Hx Hu]. now split; [left|].
    - eapply Forall_impl; [|exact Hd]. intros x [Hx Hu]. now split; [right|]. }
  exists response, api, realtime, index, current, (hs ++ ds)%list.
  repeat split; try assumption.
  - eapply Forall_impl; [|exact Hall]. now intros x [Hx _].
  - intros x [<-|Hin] Hx.
    + rewrite Hc in Hx. destruct Hx; discriminate.
    + rewrite Forall_forall in Hall. now destruct (Hall x Hin).
  - intros z ->. simpl in Hint. now injection Hint as <-.
  - subst index. now apply py_int_float.
  - subst index. apply py_int_float in Hint. rewrite Hint.
    now apply trunc_range.
  - subst index. apply py_int_float in Hint. rewrite Hint.
    now apply trunc_range.
Qed.

End RecordFacts.

(** ** The cache *)

Lemma Qltb_lt (x y : Q) : Qltb x y = true <-> x < y.
Proof.
  unfold Qltb. rewrite negb_true_iff, <- not_true_iff_false, Qle_bool_iff.
  split; [apply Qnot_le_lt | apply Qlt_not_le].
Qed.

Lemma Qltb_ge (x y : Q) : Qltb x y = false <-> y <= x.
Proof.
  unfold Qltb. rewrite negb_false_iff. apply Qle_bool_iff.
Qed.

Section CacheFacts.
Context `{PyRuntime}.
Variable invalidate : M (list Weather).

Lemma get_weather_fresh self w t :
  update_time self = Some t ->
  now w - t < cache_invalidation self ->
  Cached_get_weather invalidate self w =
  {| returned := inr (cache self); self_after := self;
     world_after := tick w; refreshes := 0 |}.
Proof.
  intros Ht Hlt. unfold Cached_get_weather, pytime_time. rewrite Ht.
  apply Qltb_lt in Hlt. now rewrite Hlt.
Qed.

Lemma get_weather_stale self w t :
  update_time self = Some t ->
  cache_invalidation self <= now w - t ->
  Cached_get_weather invalidate self w = refresh_and_store invalidate self (tick w).
Proof.
  intros Ht Hge. unfold Cached_get_weather, pytime_time. rewrite Ht.
  apply Qltb_ge in Hge. now rewrite Hge.
Qed.

Lemma get_weather_empty self w :
  update_time self = None ->
  Cached_get_weather invalidate self w = refresh_and_store invalidate self w.
Proof. intros Ht. unfold Cached_get_weather. now rewrite Ht. Qed.

(** A refresh calls the hook once, stamps the time it read before the
    call, and stores what the hook returned, if it returned. *)
Lemma refresh_and_store_spec self w :
  let out := refresh_and_store invalidate self w in
  refreshes out = 1%nat /\
  update_time (self_after out) = Some (now w) /\
  cache_invalidation (self_after out) = cache_invalidation self /\
  world_after out = snd (invalidate (tick w)) /\
  match fst (invalidate (tick w)) with
  | inr data =>
      returned out = inr (Some data) /\ cache (self_after out) = Some data
  | inl e =>
      returned out = inl e /\ cache (self_after out) = cache self
  end.
Proof.
  unfold refresh_and_store, pytime_time.
  destruct (invalidate (tick w)) as [[e|data] w2]; simpl; repeat split.
Qed.

(** After a call that returned, the object holds a timestamp and its
    cache is what the call returned. *)
Lemma get_weather_returned self w r :
  returned (Cached_get_weather invalidate self w) = inr r ->
  cache (self_after (Cached_get_weather invalidate self w)) = r /\
  cache_invalidation (self_after (Cached_get_weather invalidate self w)) =
    cache_invalidation self /\
  (refreshes (Cached_get_weather invalidate self w) <= 1)%nat /\
  exists t, update_time (self_after (Cached_get_weather invalidate self w)) = Some t.
Proof.
  assert (Hrefresh : forall w0 r0,
    returned (refresh_and_store invalidate self w0) = inr r0 ->
    cache (self_after (refresh_and_store invalidate self w0)) = r0 /\
    cache_invalidation (self_after (refresh_and_store invalidate self w0)) =
      cache_invalidation self /\
    (refreshes (refresh_and_store invalidate self w0) <= 1)%nat /\
    exists t,
      update_time (self_after (refresh_and_store invalidate self w0)) =
      Some t).
  { intros w0 r0.
    destruct (refresh_and_store_spec self w0) as (Hn & Ht & Hi & _ & Hd).
    destruct (fst (invalidate (tick w0))) as [e|data];
      destruct Hd as [Hret Hcache]; rewrite Hret; [discriminate|].
    intros [= <-]. rewrite Hn. repeat split; eauto. }
  unfold Cached_get_weather, pytime_time.
  destruct (update_time self) as [t|] eqn:Ht; [|apply Hrefresh].
  destruct (Qltb (now w - t) (cache_invalidation self));
    [|apply Hrefresh].
  simpl. intros [= <-]. repeat split; eauto.
Qed.

(** A call that refreshed stamped a reading taken since it started. *)
Lemma get_weather_stamp self w :
  refreshes (Cached_get_weather invalidate self w) = 1%nat ->
  exists n,
    update_time (self_after (Cached_get_weather invalidate self w)) =
    Some (clock w (reads w + n)).
Proof.
  unfold Cached_get_weather, pytime_time.
  destruct (update_time self) as [t|].
  - destruct (Qltb (now w - t) (cache_invalidation self));
      [discriminate|]. intros _. exists 1%nat.
    destruct (refresh_and_store_spec self (tick w)) as (_ & Ht & _).
    rewrite Ht. unfold now, tick; simpl. now rewrite Nat.add_1_r.
  - intros _. exists 0%nat.
    destruct (refresh_and_store_spec self w) as (_ & Ht & _).
    rewrite Ht. unfold now. now rewrite Nat.add_0_r.
Qed.

(** C2, as the code has it. With a timestamp [t] stored and fewer than
    [cache_invalidation] seconds gone since [t], [get_weather] returns
    the cache as it is and does not call the hook. Hence, of two calls
    of which the first returned, the second returns the same value and
    the two make at most one upstream call, whenever the second comes
    fewer than [cache_invalidation] seconds after the timestamp left by
    the first; this is so in particular when the first call refreshed,
    the clock did not go back since it started and the second call
    starts fewer than [cache_invalidation] seconds after it. With
    [cache_invalidation] seconds or more gone since [t], the call makes
    exactly one upstream call. *)
Theorem get_weather_within_ttl :
  (forall self w t,
     update_time self = Some t ->
     now w - t < cache_invalidation self ->
     Cached_get_weather invalidate self w =
     {| returned := inr (cache self); self_after := self;
        world_after := tick w; refreshes := 0 |}) /\
  (forall self w1 w2 r t,
     let first := Cached_get_weather invalidate self w1 in
     let second := Cached_get_weather invalidate (self_after first) w2 in
     returned first = inr r ->
     update_time (self_after first) = Some t ->
     now w2 - t < cache_invalidation self ->
     returned second = inr r /\
     (refreshes first + refreshes second <= 1)%nat) /\
  (forall self w1 w2 r,
     let first := Cached_get_weather invalidate self w1 in
     let second := Cached_get_weather invalidate (self_after first) w2 in
     returned first = inr r ->
     refreshes first = 1%nat ->
     (forall n, now w1 <= clock w1 (reads w1 + n)) ->
     now w2 - now w1 < cache_invalidation self ->
     returned second = inr r /\
     (refreshes first + refreshes second = 1)%nat) /\
  (forall self w t,
     update_time self = Some t ->
     cache_invalidation self <= now w - t ->
     refreshes (Cached_get_weather invalidate self w) = 1%nat).
Proof.
  assert (Hpair : forall self w1 w2 r t,
    returned (Cached_get_weather invalidate self w1) = inr r ->
    update_time (self_after (Cached_get_weather invalidate self w1)) =
      Some t ->
    now w2 - t < cache_invalidation self ->
    Cached_get_weather invalidate
      (self_after (Cached_get_weather invalidate self w1)) w2 =
    {| returned := inr r;
       self_after := self_after (Cached_get_weather invalidate self w1);
       world_after := tick w2; refreshes := 0 |}).
  { intros self w1 w2 r t Hr Ht Hlt.
    destruct (get_weather_returned self w1 r Hr) as (Hc & Hi & _ & _).
    rewrite (get_weather_fresh _ w2 t Ht) by now rewrite Hi.
    now rewrite Hc. }
  split; [|split; [|split]].
  - apply get_weather_fresh.
  - intros self w1 w2 r t first second Hr Ht Hlt. subst first second.
    rewrite (Hpair self w1 w2 r t Hr Ht Hlt). simpl. split; [reflexivity|].
    destruct (get_weather_returned self w1 r Hr) as (_ & _ & Hn & _). lia.
  - intros self w1 w2 r first second Hr Hn Hmono Hlt. subst first second.
    destruct (get_weather_stamp self w1 Hn) as [n Ht].
    rewrite (Hpair self w1 w2 r _ Hr Ht).
    + simpl. split; [reflexivity|]. rewrite Hn. reflexivity.
    + eapply Qle_lt_trans; [|exact Hlt].
      unfold Qminus. apply Qplus_le_r. apply Qopp_le_compat, Hmono.
  - intros self w t Ht Hge. rewrite (get_weather_stale self w t Ht Hge).
    apply refresh_and_store_spec.
Qed.

End CacheFacts.

(** ** The cache at work *)

Section Scenarios.
Import Samples.
#[local] Existing Instance rt.

Lemma afternoon_monotone (n : nat) :
  now afternoon <= clock afternoon (reads afternoon + n).
Proof.
  do 6 (destruct n as [|n]; [apply Qle_bool_imp_le; reflexivity|]).
  destruct n; apply Qle_bool_imp_le; reflexivity.
Qed.

(** The first call of the afternoon: the cache is empty, the call
    stamps 1000 and refreshes, the record is built at 1001. *)
Lemma afternoon_first_call :
  CaiYun_get_weather provider20 afternoon =
  {| returned := inr (Some (refreshed_at 1001));
     self_after :=
       set_cache (set_update_time (caiyun_base provider20) 1000)
                 (refreshed_at 1001);
     world_after :=
       {| clock := clock afternoon; reads := 2;
          upstream := upstream afternoon; sent := [request] |};
     refreshes := 1 |}.
Proof. vm_compute. reflexivity. Qed.

(** C1, on the code. The server answers with a non-OK status while the
    cache is empty: [get_weather] raises the [IOError] of the refresh and
    leaves the cache as it was, but the timestamp has moved, from unset
    to the 1000 the clock read before the refresh. The next call, one
    second later, therefore finds a fresh timestamp: it returns the
    cache that was never filled, Python's [None], without a refresh. *)
Theorem failed_refresh_moves_timestamp :
  let failed := CaiYun_get_weather provider outage in
  let next :=
    CaiYun_get_weather (CaiYun_after provider failed) (world_after failed) in
  returned failed = inl IOError /\
  cache (self_after failed) = cache (caiyun_base provider) /\
  update_time (caiyun_base provider) = None /\
  update_time (self_after failed) = Some 1000 /\
  now (world_after failed) = 1001 /\
  returned next = inr None /\
  refreshes next = 0%nat.
Proof. vm_compute. repeat split. Qed.

(** C2 as stated fails: the cache was filled at 1000 and lives 20
    seconds; a call at 1019 and a call at 1021, two seconds apart with no
    failed refresh, return different lists, the second one refreshed. *)
Lemma close_calls_may_differ :
  let filling := CaiYun_get_weather provider20 afternoon in
  let p1 := CaiYun_after provider20 filling in
  let first := CaiYun_get_weather p1 (world_after filling) in
  let p2 := CaiYun_after p1 first in
  let second := CaiYun_get_weather p2 (world_after first) in
  update_time (caiyun_base p1) = Some 1000 /\
  cache_invalidation (caiyun_base p1) = 20 /\
  now (world_after filling) = 1019 /\
  now (world_after first) = 1021 /\
  1021 - 1019 < 20 /\
  returned first = inr (Some (refreshed_at 1001)) /\
  returned second = inr (Some (refreshed_at 1022)) /\
  returned first <> returned second.
Proof.
  vm_compute. repeat split. intros E. discriminate E.
Qed.

(** The theorem on the afternoon: the call at 1019 is served from the
    cache filled at 1000, the call at 1021 refreshes. *)
Lemma get_weather_within_ttl_witness :
  let hook := CaiYun_invalidate provider20 in
  let filling := Cached_get_weather hook (caiyun_base provider20) afternoon in
  let first :=
    Cached_get_weather hook (self_after filling) (world_after filling) in
  let second :=
    Cached_get_weather hook (self_after first) (world_after first) in
  first =
    {| returned := inr (cache (self_after filling));
       self_after := self_after filling;
       world_after := tick (world_after filling); refreshes := 0 |} /\
  (returned first = inr (Some (refreshed_at 1001)) /\
   (refreshes filling + refreshes first <= 1)%nat) /\
  (returned first = inr (Some (refreshed_at 1001)) /\
   (refreshes filling + refreshes first = 1)%nat) /\
  refreshes second = 1%nat.
Proof.
  intros hook filling first second.
  destruct (get_weather_within_ttl hook) as (Hhit & Hpair & Hclose & Hstale).
  split; [|split; [|split]].
  - apply (Hhit (self_after filling) (world_after filling) 1000).
    + vm_compute; reflexivity.
    + vm_compute; reflexivity.
  - apply (Hpair (caiyun_base provider20) afternoon (world_after filling)
                 (Some (refreshed_at 1001)) 1000).
    + vm_compute; reflexivity.
    + vm_compute; reflexivity.
    + vm_compute; reflexivity.
  - apply (Hclose (caiyun_base provider20) afternoon (world_after filling)
                  (Some (refreshed_at 1001))).
    + vm_compute; reflexivity.
    + vm_compute; reflexivity.
    + exact afternoon_monotone.
    + vm_compute; reflexivity.
  - apply (Hstale (self_after first) (world_after first) 1000).
    + vm_compute; reflexivity.
    + apply Qle_bool_imp_le. vm_compute; reflexivity.
Defined.

End Scenarios.

(** ** The other providers *)

Section FixedProviders.
Context `{PyRuntime}.

Lemma Direct_calls_repeat (n : nat) (self : DirectWeatherProvider) :
  Direct_calls n self = repeat [direct_weather self] n.
Proof. induction n as [|n IH]; simpl; [reflexivity | now rewrite IH]. Qed.

(** C9. A direct provider built from one record returns the list that
    holds this record alone, at every call and however many calls are
    made; the call is a function of the object and changes nothing. *)
Theorem direct_provider_constant (weather : Weather) (location : Location) :
  Direct_get_weather (DirectWeatherProvider_init weather location) =
    [weather] /\
  forall n,
    Direct_calls n (DirectWeatherProvider_init weather location) =
    repeat [weather] n.
Proof.
  split; [reflexivity|]. intros n. apply Direct_calls_repeat.
Qed.

(** C10. A CaiYun provider reports CELSIUS whatever location, key and
    cache lifespan it was built with, and a call of [get_weather] does
    not change what it reports. *)
Theorem caiyun_unit_is_celsius :
  (forall location api_key cache_invalidate_interval,
     CaiYun_get_temperature_unit
       (CaiYunWeatherProvider_init location api_key
                                   cache_invalidate_interval) = CELSIUS) /\
  (forall self w,
     CaiYun_get_temperature_unit
       (CaiYun_after self (CaiYun_get_weather self w)) =
     CaiYun_get_temperature_unit self).
Proof.
  split; [reflexivity|]. intros self w.
  unfold CaiYun_get_temperature_unit, CaiYun_after, CaiYun_get_weather,
    Cached_get_weather, refresh_and_store, pytime_time; simpl.
  destruct (update_time (caiyun_base self)) as [t|].
  - destruct (Qltb _ _); [reflexivity|].
    now destruct (CaiYun_invalidate self _) as [[e|data] w2].
  - now destruct (CaiYun_invalidate self _) as [[e|data] w2].
Qed.

End FixedProviders.

(** ** The refresh on the sample payload *)

Section Examples.
Import Samples.
#[local] Existing Instance rt.

(** The order of the buckets in [refreshed]. *)
Lemma invalidate_current_hourly_daily_witness :
  CaiYun_invalidate provider start = (inr refreshed, served) /\
  exists current hourly daily,
    refreshed = ([current] ++ hourly ++ daily)%list /\
    effect current = CURRENT /\
    Forall (fun x => effect x = HOURLY) hourly /\
    Forall (fun x => effect x = DAILY) daily /\
    StronglySorted rank_le refreshed.
Proof.
  split; [vm_compute; reflexivity|].
  apply (invalidate_current_hourly_daily provider start refreshed served).
  vm_compute; reflexivity.
Defined.

(** During the outage the refresh stops at the status, also with a
    [json.loads] that would reject the body. *)
Lemma invalidate_not_ok_witness :
  upstream outage (List.length (sent outage)) = inr bad_response /\
  ok bad_response = false /\
  @CaiYun_invalidate deaf (CaiYunWeatherProvider_init shanghai "KEY" 3600)
                     outage =
  (inl IOError,
   {| clock := clock outage; reads := 0; upstream := upstream outage;
      sent := [request] |}).
Proof.
  split; [reflexivity|]. split; [reflexivity|].
  apply (@invalidate_not_ok deaf
           (CaiYunWeatherProvider_init shanghai "KEY" 3600)
           outage bad_response); reflexivity.
Defined.

(** The pressure of [refreshed]. *)
Lemma invalidate_pressure_hPa_witness :
  CaiYun_invalidate provider start = (inr refreshed, served) /\
  exists response api_callback realtime p current forecast,
    upstream start (List.length (sent start)) = inr response /\
    json_loads (text response) = inr api_callback /\
    result_section api_callback "realtime" = inr realtime /\
    Py.getitem realtime "pressure" = inr p /\
    refreshed = current :: forecast /\
    effect current = CURRENT /\
    Py.truediv p 100 = inr (pressure current) /\
    (forall q, Py.number_value p = Some q ->
       pressure current = PFloat (Py.float_div (Finite q) 100) /\
       (Binary64.overflows (Binary64.round (q / 100)) = false ->
        exists r,
          pressure current = PFloat (Finite r) /\
          r = Binary64.round (q / 100) /\
          (2 ^ (-1022) <= Qabs (q / 100) ->
           Qabs (r - q / 100) <= Qabs (q / 100) * 2 ^ (-53)) /\
          (forall m : Z,
             q / 100 == inject_Z m * 2 ^ Binary64.ulp_exponent (q / 100) ->
             r == q / 100))) /\
    (p = PInt 101325 ->
       exists r, pressure current = PFloat (Finite r) /\ r == 1013.25).
Proof.
  split; [vm_compute; reflexivity|].
  apply (invalidate_pressure_hPa provider start refreshed served).
  vm_compute; reflexivity.
Defined.

(** The UV indices of [refreshed]. *)
Lemma invalidate_uv_index_witness :
  CaiYun_invalidate provider start = (inr refreshed, served) /\
  exists response api_callback realtime index current forecast,
    upstream start (List.length (sent start)) = inr response /\
    json_loads (text response) = inr api_callback /\
    result_section api_callback "realtime" = inr realtime /\
    ultraviolet_field realtime = inr index /\
    refreshed = current :: forecast /\
    effect current = CURRENT /\
    Forall (fun x => effect x = HOURLY \/ effect x = DAILY) forecast /\
    (forall x, In x refreshed -> effect x = HOURLY \/ effect x = DAILY ->
               uv_index x = (-1)%Z) /\
    py_int index = inr (uv_index current) /\
    (forall z, index = PInt z -> uv_index current = z) /\
    (forall q, index = PFloat (Finite q) ->
               uv_index current = Py.trunc q /\
               (-1 < q -> q < 11 -> (0 <= uv_index current <= 10)%Z)).
Proof.
  split; [vm_compute; reflexivity|].
  apply (invalidate_uv_index provider start refreshed served).
  vm_compute; reflexivity.
Defined.

(** C4 as stated fails: with 4.7 in the payload's ultraviolet field the
    CURRENT record gets the index 4, and the nearest integer is 5. *)
Lemma uv_index_not_nearest :
  CaiYun_invalidate provider start = (inr refreshed, served) /\
  json_loads (text good_response) = inr standard /\
  result_section standard "realtime" =
    inr (realtime (PInt 101325) (num 47 10)) /\
  ultraviolet_field (realtime (PInt 101325) (num 47 10)) =
    inr (PFloat (Finite (47 # 10))) /\
  exists current forecast,
    refreshed = current :: forecast /\
    effect current = CURRENT /\
    uv_index current = 4%Z /\
    nearest_integer (47 # 10) = 5%Z /\
    uv_index current <> nearest_integer (47 # 10).
Proof.
  split; [vm_compute; reflexivity|].
  repeat (split; [reflexivity|]).
  eexists _, _. repeat split; try reflexivity.
  vm_compute. intros E. discriminate E.
Qed.

End Examples.

(** * Further properties of the code *)

(** ** The parser, entry by entry *)

Lemma bind_inl {A B} (m : res A) (k : A -> res B) (e : exn) :
  m = inl e -> bind m k = inl e.
Proof. now intros ->. Qed.

Lemma Forall2_seq_nth {A} (P : nat -> A -> Prop) (n : nat) :
  forall (start : nat) (l : list A),
    Forall2 P (seq start n) l ->
    forall i, (i < n)%nat ->
      exists x, nth_error l i = Some x /\ P (start + i)%nat x.
Proof.
  induction n as [|n IH]; intros start l HF i Hi; [lia|].
  simpl in HF. inversion HF as [|j x js xs Hjx Hrest]; subst.
  destruct i as [|i].
  - exists x. rewrite Nat.add_0_r. now split.
  - destruct (IH (S start) xs Hrest i) as [y [Hy HP]]; [lia|].
    exists y. split; [exact Hy|]. now rewrite Nat.add_succ_r.
Qed.

Section ParserEntries.
Context `{PyRuntime}.

(** The loop appends the record of each index, in the order of the
    indices. *)
Lemma parse_loop_entries source e indices :
  forall target_set out,
    parse_loop source e indices target_set = inr out ->
    exists new,
      out = (target_set ++ new)%list /\
      Forall2 (fun i w => parse_entry source e i = inr w) indices new.
Proof.
  induction indices as [|i rest IH]; simpl; intros target_set out E.
  - injection E as <-. exists []. rewrite app_nil_r. split; constructor.
  - split_bind E. apply IH in E. destruct E as [new [-> HF]].
    exists (a :: new). rewrite <- app_assoc. split; [reflexivity|].
    now constructor.
Qed.

(** X1. A successful [parse] leaves [target_set] followed by exactly one
    record for each index of the precipitation series, in the order of the
    series: the record at position [i] is the one built from the entries
    at index [i]. With an empty precipitation series it adds nothing. *)
Theorem parse_one_record_per_index target_set source e out :
  parse target_set source e = inr out ->
  exists series n new,
    Py.getitem source "precipitation" = inr series /\
    Py.len series = inr n /\
    out = (target_set ++ new)%list /\
    List.length new = n /\
    forall i, (i < n)%nat ->
      exists w, nth_error new i = Some w /\ parse_entry source e i = inr w.
Proof.
  unfold parse. intros E. split_bind E. split_bind E.
  apply parse_loop_entries in E. destruct E as [new [-> HF]].
  exists a, a0, new. repeat split; try assumption.
  - apply Forall2_length in HF. now rewrite length_seq in HF.
  - intros i Hi. destruct (Forall2_seq_nth _ _ _ _ HF i Hi) as [w [Hw HP]].
    now exists w.
Qed.

Lemma parse_loop_first_failure source e pre i post err :
  forall target_set,
    Forall (fun j => exists w, parse_entry source e j = inr w) pre ->
    parse_entry source e i = inl err ->
    parse_loop source e (pre ++ i :: post) target_set = inl err.
Proof.
  induction pre as [|j pre IH]; simpl; intros target_set Hpre Hi.
  - now rewrite Hi.
  - inversion Hpre as [|? ? [w Hw] Hrest]; subst.
    rewrite Hw; simpl. now apply IH.
Qed.

(** X2. [parse] stops at the first index whose entries cannot be read:
    when the entries at every index below [i] parse and those at [i]
    raise, [parse] raises that same exception, and the records of the
    indices below [i] are not returned. *)
Theorem parse_first_failure target_set source e series n i err :
  Py.getitem source "precipitation" = inr series ->
  Py.len series = inr n ->
  (i < n)%nat ->
  (forall j, (j < i)%nat -> exists w, parse_entry source e j = inr w) ->
  parse_entry source e i = inl err ->
  parse target_set source e = inl err.
Proof.
  intros Hs Hn Hi Hbelow Herr. unfold parse.
  rewrite Hs. cbn [bind]. rewrite Hn. cbn [bind].
  replace (seq 0 n) with (seq 0 i ++ i :: seq (S i) (n - S i))%list.
  - apply parse_loop_first_failure; [|exact Herr].
    apply Forall_forall. intros j Hj. apply in_seq in Hj.
    apply Hbelow. lia.
  - change (i :: seq (S i) (n - S i)) with (seq i (S (n - S i))).
    replace i with (0 + i)%nat at 2 by lia.
    rewrite <- seq_app. f_equal. lia.
Qed.

(** X3. The time of an entry is read from its "datetime" field when it
    has one, else from its "date" field; an entry with neither raises
    [ValueError], and a field that is not an ISO string raises what the
    conversion raises. *)
Theorem entry_time_datetime_then_date (d : list (string * pyval)) :
  entry_time (PDict d) =
  match Py.lookup "datetime" d with
  | Some stamp => py_timetuple stamp
  | None =>
      match Py.lookup "date" d with
      | Some stamp => py_timetuple stamp
      | None => inl ValueError
      end
  end.
Proof.
  unfold entry_time. rewrite !contains_lookup. simpl.
  destruct (Py.lookup "datetime" d); [reflexivity|].
  destruct (Py.lookup "date" d); reflexivity.
Qed.

(** X4. A record of the hourly or daily series holds what [pick] found
    at its index in each series, as found: its pressure is the payload's
    value, not divided by 100 as the CURRENT record's is, its day is the
    classification of the picked sky-condition string, its time comes
    from the precipitation entry. *)
Theorem parse_entry_fields source e i w :
  parse_entry source e i = inr w ->
  (exists entry, column source "precipitation" i = inr entry /\
                 entry_time entry = inr (time w)) /\
  (exists u, column source "temperature" i = inr u /\
             pick u = inr (temperature w)) /\
  (exists u, column source "humidity" i = inr u /\
             pick u = inr (humidity w)) /\
  (exists u raw, column source "skycon" i = inr u /\
                 pick u = inr (PStr raw) /\ day w = caiyun_get_day raw) /\
  (exists u, column source "pressure" i = inr u /\
             pick u = inr (pressure w)) /\
  effect w = e /\ uv_index w = (-1)%Z.
Proof.
  unfold parse_entry. intros E. repeat split_bind E.
  injection E as <-. simpl. repeat split; eauto.
  destruct a6 as [| | | |raw| |]; try discriminate.
  injection Ea9 as <-. now exists a5, raw.
Qed.

End ParserEntries.

(** ** What a refresh does to the world *)

Section RefreshEffects.
Context `{PyRuntime}.

Lemma parse_body_world body w :
  (exists e, parse_body body w = (inl e, w)) \/
  (exists e, parse_body body w = (inl e, tick w)) \/
  (exists ws, parse_body body w = (inr ws, tick w)).
Proof.
  unfold parse_body, bindM, lift, retM, pytime_localtime.
  destruct (json_loads body) as [e|api]; [left; now exists e|].
  destruct (result_section api "realtime") as [e|rt]; [left; now exists e|].
  destruct (result_section api "hourly") as [e|rh]; [left; now exists e|].
  destruct (result_section api "daily") as [e|rd]; [left; now exists e|].
  right.
  destruct (current_record _ rt) as [e|c]; [left; now exists e|].
  destruct (parse [] rh HOURLY) as [e|hs]; [left; now exists e|].
  destruct (parse [] rd DAILY) as [e|ds]; [left; now exists e|].
  right. eexists. reflexivity.
Qed.

Lemma invalidate_world self w :
  (exists e, CaiYun_invalidate self w = (inl e, requested self w)) \/
  (exists e, CaiYun_invalidate self w = (inl e, tick (requested self w))) \/
  (exists ws, CaiYun_invalidate self w = (inr ws, tick (requested self w))).
Proof.
  unfold CaiYun_invalidate, bindM, requests_get.
  fold (request_url self) (requested self w).
  destruct (upstream w (List.length (sent w))) as [e|response];
    [left; now exists e|].
  destruct (ok response); simpl; [|left; now exists IOError].
  apply parse_body_world.
Qed.

(** X5. Whatever it returns or raises, one call of [invalidate] sends
    exactly one request, to the weather URL of the provider, reads the
    clock at most once, and exactly once when it returns. *)
Theorem invalidate_one_request self w :
  sent (snd (CaiYun_invalidate self w)) = request_url self :: sent w /\
  (reads (snd (CaiYun_invalidate self w)) = reads w \/
   reads (snd (CaiYun_invalidate self w)) = S (reads w)) /\
  (forall ws, fst (CaiYun_invalidate self w) = inr ws ->
              reads (snd (CaiYun_invalidate self w)) = S (reads w)).
Proof.
  destruct (invalidate_world self w) as [[e E]|[[e E]|[ws E]]];
    rewrite E; simpl; repeat split; auto; discriminate.
Qed.

(** X6. A refresh that cannot get hold of the three sections of the
    payload raises before it reads the clock or builds a record: the
    exception of [requests.get], the one of [json.loads] on an OK
    response, or the one of the first of the look-ups of "realtime",
    "hourly" and "daily" that fails. *)
Theorem invalidate_fails_before_clock self w e :
  (upstream w (List.length (sent w)) = inl e \/
   exists response,
     upstream w (List.length (sent w)) = inr response /\
     ok response = true /\
     (json_loads (text response) = inl e \/
      exists api_callback,
        json_loads (text response) = inr api_callback /\
        (result_section api_callback "realtime" = inl e \/
         exists realtime,
           result_section api_callback "realtime" = inr realtime /\
           (result_section api_callback "hourly" = inl e \/
            exists hourly,
              result_section api_callback "hourly" = inr hourly /\
              result_section api_callback "daily" = inl e)))) ->
  CaiYun_invalidate self w = (inl e, requested self w).
Proof.
  unfold CaiYun_invalidate, bindM, requests_get.
  fold (request_url self) (requested self w).
  intros [Hget|(response & Hget & Hok & Hbody)]; rewrite Hget;
    [reflexivity|].
  rewrite Hok; simpl. unfold parse_body, bindM, lift.
  destruct Hbody as [Hjson|(api & Hjson & Hsections)]; rewrite Hjson;
    [reflexivity|].
  destruct Hsections as [Hrt|(rt & Hrt & Hrest)]; rewrite Hrt;
    [reflexivity|].
  destruct Hrest as [Hh|(rh & Hh & Hd)]; rewrite Hh; [reflexivity|].
  now rewrite Hd.
Qed.

(** X7. On a CaiYun provider the calls of the refresh hook are the
    requests sent: a call of [get_weather] that is served from the cache
    sends nothing, one that refreshes sends one request. *)
Theorem caiyun_requests_are_refreshes self w :
  sent (world_after (CaiYun_get_weather self w)) =
  (repeat (request_url self) (refreshes (CaiYun_get_weather self w)) ++
   sent w)%list.
Proof.
  assert (Hrefresh : forall cached w0,
    sent (world_after (refresh_and_store (CaiYun_invalidate self) cached w0)) =
    (repeat (request_url self)
       (refreshes (refresh_and_store (CaiYun_invalidate self) cached w0)) ++
     sent w0)%list).
  { intros cached w0. unfold refresh_and_store, pytime_time.
    destruct (invalidate_one_request self (tick w0)) as (Hsent & _).
    destruct (CaiYun_invalidate self (tick w0)) as [[e|data] w2];
      simpl in *; exact Hsent. }
  unfold CaiYun_get_weather, Cached_get_weather, pytime_time.
  destruct (update_time (caiyun_base self)) as [t|]; [|apply Hrefresh].
  destruct (Qltb _ _); [reflexivity|].
  apply (Hrefresh (caiyun_base self) (tick w)).
Qed.

End RefreshEffects.

(** ** The range of the classification *)

Lemma caiyun_get_day_not_snowy_rainy (raw : string) :
  caiyun_get_day raw <> SNOWY_RAINY.
Proof.
  unfold caiyun_get_day.
  repeat match goal with
         | |- context [if ?b then _ else _] => destruct b
         end; discriminate.
Qed.

(** X8. The classification never answers SNOWY_RAINY, and every other
    sky condition is the class of some code. *)
Theorem caiyun_get_day_range (d : Day) :
  (exists raw, caiyun_get_day raw = d) <-> d <> SNOWY_RAINY.
Proof.
  split.
  - intros [raw <-]. apply caiyun_get_day_not_snowy_rainy.
  - intros Hd.
    destruct d;
      [ exists "clear" | exists "cloudy" | exists "light_rain"
      | exists "moderate_rain" | exists "heavy_rain" | contradiction
      | exists "light_snow" | exists "moderate_snow" | exists "heavy_snow"
      | exists "haze" | exists "fog" | exists "dust" | exists "sand"
      | exists "wind" | exists "" ]; reflexivity.
Qed.

(** ** The cache over many calls *)

Section CacheSequences.
Context `{PyRuntime}.
Variable invalidate : M (list Weather).

(** What [get_weather] never touches, and what it always leaves. *)
Lemma get_weather_frame self w :
  cached_base (self_after (Cached_get_weather invalidate self w)) =
    cached_base self /\
  cache_invalidation (self_after (Cached_get_weather invalidate self w)) =
    cache_invalidation self /\
  exists t,
    update_time (self_after (Cached_get_weather invalidate self w)) = Some t.
Proof.
  assert (Hrefresh : forall w0,
    cached_base (self_after (refresh_and_store invalidate self w0)) =
      cached_base self /\
    cache_invalidation (self_after (refresh_and_store invalidate self w0)) =
      cache_invalidation self /\
    exists t,
      update_time (self_after (refresh_and_store invalidate self w0)) =
      Some t).
  { intros w0. unfold refresh_and_store, pytime_time.
    destruct (invalidate (tick w0)) as [[e|data] w2]; simpl; eauto. }
  unfold Cached_get_weather, pytime_time.
  destruct (update_time self) as [t|] eqn:Ht; [|apply Hrefresh].
  destruct (Qltb _ _); [|apply Hrefresh]. simpl. eauto.
Qed.

(** X9. When [get_weather] raises, the exception is the hook's: the call
    made one refresh, the cache holds what it held, and the timestamp is
    set all the same. Any call that comes fewer than [cache_invalidation]
    seconds after that timestamp is then served what the cache held
    before the failure, without a refresh. *)
Theorem get_weather_raises self w e :
  returned (Cached_get_weather invalidate self w) = inl e ->
  refreshes (Cached_get_weather invalidate self w) = 1%nat /\
  cache (self_after (Cached_get_weather invalidate self w)) = cache self /\
  exists t,
    update_time (self_after (Cached_get_weather invalidate self w)) =
      Some t /\
    forall w2,
      now w2 - t < cache_invalidation self ->
      Cached_get_weather invalidate
        (self_after (Cached_get_weather invalidate self w)) w2 =
      {| returned := inr (cache self);
         self_after := self_after (Cached_get_weather invalidate self w);
         world_after := tick w2; refreshes := 0 |}.
Proof.
  intros Hraise.
  destruct (get_weather_frame self w) as (_ & Hi & t & Ht).
  assert (Hrefresh : forall w0,
    returned (refresh_and_store invalidate self w0) = inl e ->
    refreshes (refresh_and_store invalidate self w0) = 1%nat /\
    cache (self_after (refresh_and_store invalidate self w0)) = cache self).
  { intros w0. destruct (refresh_and_store_spec invalidate self w0)
      as (Hn & _ & _ & _ & Hd).
    destruct (fst (invalidate (tick w0))) as [e0|data];
      destruct Hd as [Hret Hcache]; rewrite Hret; [|discriminate].
    intros _. now split. }
  assert (Hcall :
    refreshes (Cached_get_weather invalidate self w) = 1%nat /\
    cache (self_after (Cached_get_weather invalidate self w)) = cache self).
  { revert Hraise. unfold Cached_get_weather, pytime_time.
    destruct (update_time self) as [t0|]; [|apply Hrefresh].
    destruct (Qltb _ _); [discriminate | apply Hrefresh]. }
  destruct Hcall as [Hn Hc]. repeat split; try assumption.
  exists t. split; [exact Ht|]. intros w2 Hlt.
  rewrite (get_weather_fresh invalidate _ w2 t Ht) by now rewrite Hi.
  now rewrite Hc.
Qed.

(** X10. However many calls are made while fewer than
    [cache_invalidation] seconds have gone since the timestamp, each one
    returns the cache, none refreshes, and the object stays as it is. *)
Theorem Cached_calls_within_ttl self t worlds :
  update_time self = Some t ->
  Forall (fun w => now w - t < cache_invalidation self) worlds ->
  Cached_calls invalidate self worlds =
  map (fun w => {| returned := inr (cache self); self_after := self;
                   world_after := tick w; refreshes := 0 |}) worlds.
Proof.
  intros Ht Hall. induction Hall as [|w worlds Hw _ IH]; simpl.
  - reflexivity.
  - rewrite (get_weather_fresh invalidate self w t Ht Hw). simpl.
    now rewrite IH.
Qed.

(** X11. A cache built with a lifespan of zero, or less, never serves a
    call: with a timestamp that is not ahead of the clock, every call
    refreshes. *)
Theorem get_weather_no_lifespan self w t :
  update_time self = Some t ->
  cache_invalidation self <= 0 ->
  t <= now w ->
  Cached_get_weather invalidate self w =
    refresh_and_store invalidate self (tick w) /\
  refreshes (Cached_get_weather invalidate self w) = 1%nat.
Proof.
  intros Ht Hzero Hclock.
  assert (Hstale : cache_invalidation self <= now w - t).
  { apply Qle_trans with 0; [exact Hzero|].
    unfold Qminus. now apply Qle_minus_iff in Hclock. }
  rewrite (get_weather_stale invalidate self w t Ht Hstale).
  split; [reflexivity | apply refresh_and_store_spec].
Qed.

(** X12. Through any sequence of calls a cached provider keeps the
    location, the unit and the lifespan it was built with, and whenever
    its cache holds a list a timestamp is stored with it. *)
Theorem reachable_invariant location temperature_unit interval self :
  reachable invalidate location temperature_unit interval self ->
  get_location (cached_base self) = location /\
  get_temperature_unit (cached_base self) = temperature_unit /\
  cache_invalidation self = interval /\
  (forall data, cache self = Some data ->
                exists t, update_time self = Some t).
Proof.
  intros Hreach. induction Hreach as [|self w Hreach IH].
  - simpl. repeat split. discriminate.
  - destruct IH as (Hloc & Hunit & Hint & _).
    destruct (get_weather_frame self w) as (Hb & Hi & t & Ht).
    rewrite Hb, Hi. repeat split; try assumption.
    intros data _. now exists t.
Qed.

End CacheSequences.

(** ** Names and icons *)

Module PyTextFacts.
Import PyText.

Lemma lower_upper_ascii (c : ascii) :
  PyStr.lower_ascii (upper_ascii c) = PyStr.lower_ascii c.
Proof. destruct c as [[] [] [] [] [] [] [] []]; reflexivity. Qed.

(** Capitalising changes the case of letters only. *)
Lemma lower_capitalize (s : string) :
  PyStr.lower (capitalize s) = PyStr.lower s.
Proof.
  destruct s as [|c rest]; simpl; [reflexivity|].
  now rewrite lower_upper_ascii, PyStrFacts.lower_idempotent.
Qed.

Lemma capitalize_length (s : string) :
  String.length (capitalize s) = String.length s.
Proof.
  destruct s as [|c rest]; simpl; [reflexivity|].
  now rewrite PyStrFacts.lower_length.
Qed.

(** Replacing a character by another keeps the length. *)
Lemma replace_length (old new : ascii) (s : string) :
  String.length (replace old (String new EmptyString) s) = String.length s.
Proof.
  induction s as [|c rest IH]; simpl; [reflexivity|].
  destruct (Ascii.eqb c old); simpl; now rewrite IH.
Qed.

Lemma lower_replace (old new : ascii) (s : string) :
  PyStr.lower_ascii old = old ->
  PyStr.lower_ascii new = new ->
  (forall c, PyStr.lower_ascii c = old -> c = old) ->
  PyStr.lower (replace old (String new EmptyString) s) =
  replace old (String new EmptyString) (PyStr.lower s).
Proof.
  intros Hold Hnew Honly. induction s as [|c rest IH]; simpl; [reflexivity|].
  destruct (Ascii.eqb c old) eqn:Ec.
  - apply Ascii.eqb_eq in Ec. subst c. rewrite Hold, Ascii.eqb_refl. simpl.
    now rewrite Hnew, IH.
  - destruct (Ascii.eqb (PyStr.lower_ascii c) old) eqn:El.
    + apply Ascii.eqb_eq, Honly in El. subst c.
      now rewrite Ascii.eqb_refl in Ec.
    + simpl. now rewrite IH.
Qed.

End PyTextFacts.

(** X13. The display name of a sky condition has as many characters as
    the name of the member and no underscore; up to the case of its
    letters it is the member's name with a space for each underscore; and
    two sky conditions never share a display name. *)
Theorem get_day_name_distinct :
  (forall d, String.length (get_day_name d) = String.length (Day_name d)) /\
  (forall d, PyStr.contains "_" (get_day_name d) = false) /\
  (forall d, PyStr.lower (get_day_name d) =
             PyText.replace "_" " " (PyStr.lower (Day_name d))) /\
  (forall d d', get_day_name d = get_day_name d' -> d = d').
Proof.
  split; [|split; [|split]].
  - intros d. unfold get_day_name.
    now rewrite PyTextFacts.capitalize_length, PyTextFacts.replace_length.
  - intros d. destruct d; reflexivity.
  - intros d. unfold get_day_name.
    rewrite PyTextFacts.lower_capitalize.
    apply PyTextFacts.lower_replace; try reflexivity.
    intros c. destruct c as [[] [] [] [] [] [] [] []]; simpl;
      intros E; solve [reflexivity | discriminate E].
  - intros d d'. destruct d, d'; intros E;
      solve [reflexivity | discriminate E].
Qed.

(** X14. The alert icon is the icon of SANDY and of UNKNOWN, and of no
    other sky condition; and whatever code the provider sends, the icon
    of its class is never the one of mixed snow and rain. *)
Theorem weather_icon_alert :
  (forall d, get_weather_icon d = get_image "weather-alert" <->
             d = SANDY \/ d = UNKNOWN) /\
  (forall raw, get_weather_icon (caiyun_get_day raw) <>
               get_image "weather-snowy-rainy").
Proof.
  split.
  - intros d. split.
    + destruct d; intros E; try discriminate E; auto.
    + intros [-> | ->]; reflexivity.
  - intros raw E.
    apply (caiyun_get_day_not_snowy_rainy raw).
    destruct (caiyun_get_day raw); solve [reflexivity | discriminate E].
Qed.

(** ** What the views pick *)

Lemma effect_eqb_eq (a b : WeatherEffectiveness) :
  effect_eqb a b = true <-> a = b.
Proof.
  unfold effect_eqb. destruct (WeatherEffectiveness_eq_dec a b); split;
    solve [auto | discriminate].
Qed.

Lemma effect_eqb_neq (a b : WeatherEffectiveness) :
  a <> b -> effect_eqb a b = false.
Proof.
  intros Hab. unfold effect_eqb.
  now destruct (WeatherEffectiveness_eq_dec a b).
Qed.

Section ViewFacts.
Context `{PyRuntime}.

(** No record of the other buckets is picked. *)
Lemma find_other_bucket (e e' : WeatherEffectiveness) (l : list Weather) :
  e' <> e ->
  Forall (forecast_of e') l ->
  find (fun weather => effect_eqb (effect weather) e) l = None.
Proof.
  intros Hne Hall. induction Hall as [|x l [Hx _] _ IH]; simpl;
    [reflexivity|].
  now rewrite Hx, effect_eqb_neq.
Qed.

Lemma find_same_bucket (e : WeatherEffectiveness) (l : list Weather) :
  Forall (forecast_of e) l ->
  find (fun weather => effect_eqb (effect weather) e) l = hd_error l.
Proof.
  intros Hall. destruct Hall as [|x l [Hx _] _]; simpl; [reflexivity|].
  rewrite Hx. now rewrite (proj2 (effect_eqb_eq e e) eq_refl).
Qed.

Lemma find_app_none {A} (f : A -> bool) (l1 l2 : list A) :
  find f l1 = None -> find f (l1 ++ l2) = find f l2.
Proof.
  induction l1 as [|x l1 IH]; simpl; [reflexivity|].
  destruct (f x); [discriminate | exact IH].
Qed.

(** X15. On the list of a successful refresh, a large view shows the
    CURRENT record when it asks for CURRENT, the first hourly record when
    it asks for HOURLY, the first daily record when it asks for DAILY,
    and nothing ([StopIteration]) when the series asked for is empty;
    asked for ANY it finds nothing, no record being tagged ANY, whereas a
    mini view asked for ANY shows the CURRENT record. *)
Theorem views_on_refresh self w ws w' :
  CaiYun_invalidate self w = (inr ws, w') ->
  exists current hourly daily,
    ws = ([current] ++ hourly ++ daily)%list /\
    Large_select CURRENT ws = Some current /\
    Large_select HOURLY ws = hd_error hourly /\
    Large_select DAILY ws = hd_error daily /\
    Large_select ANY ws = None /\
    Mini_select ANY ws = Some current.
Proof.
  intros E. apply invalidate_inr in E.
  destruct E as (response & api & realtime & rh & rd & current &
                 hs & ds & _ & _ & _ & _ & _ & _ & Hc & Hh & Hd & ->).
  apply current_record_fields in Hc. destruct Hc as [Hc _].
  apply parse_forecast in Hh, Hd.
  exists current, hs, ds. unfold Large_select, Mini_select. simpl.
  rewrite Hc. simpl. repeat split.
  - destruct hs as [|x hs]; simpl.
    + now apply find_other_bucket with DAILY.
    + inversion Hh as [|? ? [Hx _] _]; subst. simpl. now rewrite Hx.
  - rewrite find_app_none by now apply find_other_bucket with HOURLY.
    now apply find_same_bucket.
  - rewrite find_app_none by now apply find_other_bucket with HOURLY.
    now apply find_other_bucket with DAILY.
Qed.

(** X16. The view built around one record for the axis of a trend chart
    always finds that record, whatever its bucket. More generally a mini
    view asked for ANY shows the first record of any list, and asked for
    another bucket it shows what a large view shows. *)
Theorem mini_view_selection :
  (forall weather, icon_view_record weather = Some weather) /\
  (forall ws, Mini_select ANY ws = hd_error ws) /\
  (forall e ws, e <> ANY -> Mini_select e ws = Large_select e ws).
Proof.
  split; [|split].
  - intros weather. reflexivity.
  - intros [|x ws]; reflexivity.
  - intros e ws Hne. unfold Mini_select, Large_select.
    rewrite (effect_eqb_neq e ANY Hne). cbn [orb]. reflexivity.
Qed.

End ViewFacts.

(** ** The points of a trend chart *)

Section TrendFacts.
Context `{PyRuntime} `{!TimeFields}.

(** [label] reads the clock once and never raises. *)
Lemma label_eq (w : Weather) (w0 : World) :
  label w w0 =
  (inr (tm_hour (time w) - tm_hour (localtime (now w0))
        + 24 * (tm_yday (time w) - tm_yday (localtime (now w0)))
        + 365 * (tm_year (time w) - tm_year (localtime (now w0))))%Z,
   tick w0).
Proof. reflexivity. Qed.

(** X17. [label] never raises and reads the clock once, whatever the
    record: it returns the hours, 24 times the days of the year and 365
    times the years from the local time of that reading to the time of
    the record. So the label of a record stamped with the present local
    time is 0; for a record of the present year it is the number of
    hours from now to the record, counting 24 for each day of the year;
    and the labels of two records taken at the same moment differ by the
    hours, 24 times the days of the year and 365 times the years between
    them, whatever the moment. *)
Theorem label_hours_ahead :
  (forall w w0,
     label w w0 =
     (inr (tm_hour (time w) - tm_hour (localtime (now w0))
           + 24 * (tm_yday (time w) - tm_yday (localtime (now w0)))
           + 365 * (tm_year (time w) - tm_year (localtime (now w0))))%Z,
      tick w0)) /\
  (forall w w0,
     time w = localtime (now w0) -> label w w0 = (inr 0%Z, tick w0)) /\
  (forall w w0,
     tm_year (time w) = tm_year (localtime (now w0)) ->
     label w w0 =
     (inr ((24 * tm_yday (time w) + tm_hour (time w))
           - (24 * tm_yday (localtime (now w0))
              + tm_hour (localtime (now w0))))%Z,
      tick w0)) /\
  (forall a b w0,
   exists xa xb,
     label a w0 = (inr xa, tick w0) /\
     label b w0 = (inr xb, tick w0) /\
     (xa - xb =
      (tm_hour (time a) - tm_hour (time b))
      + 24 * (tm_yday (time a) - tm_yday (time b))
      + 365 * (tm_year (time a) - tm_year (time b)))%Z).
Proof.
  split; [|split; [|split]].
  - intros w w0. apply label_eq.
  - intros w w0 Hnow. rewrite label_eq, Hnow.
    apply f_equal2; [apply f_equal; ring | reflexivity].
  - intros w w0 Hyear. rewrite label_eq, Hyear.
    apply f_equal2; [apply f_equal; ring | reflexivity].
  - intros a b w0. rewrite !label_eq.
    eexists _, _. split; [reflexivity|]. split; [reflexivity|]. ring.
Qed.

(** X18. With a [value] that does not raise, the chart gets one point for
    each record that passes the filter of the view, in the order of the
    provider's list, with the value of that record; the clock is read
    once for each point, so that the label of the point at position [k]
    is taken at the reading that comes [k] readings after the first. *)
Theorem trend_data_points {V : Type} (f : Weather -> V)
    (e : WeatherEffectiveness) (ws : list Weather) :
  forall w0,
  exists points,
    trend_data (fun w => inr (f w)) e ws w0 =
    (inr points,
     Nat.iter
       (List.length
          (filter (fun w => effect_eqb e ANY || effect_eqb (effect w) e) ws))
       tick w0) /\
    map snd points =
    map f (filter (fun w => effect_eqb e ANY || effect_eqb (effect w) e) ws) /\
    forall k w,
      nth_error
        (filter (fun w => effect_eqb e ANY || effect_eqb (effect w) e) ws) k =
        Some w ->
      exists x,
        nth_error (map fst points) k = Some x /\
        label w (Nat.iter k tick w0) = (inr x, Nat.iter (S k) tick w0).
Proof.
  induction ws as [|a ws IH]; intros w0; simpl.
  - exists []. repeat split. intros [|k] w Hk; discriminate Hk.
  - destruct (effect_eqb e ANY || effect_eqb (effect a) e); [|apply IH].
    destruct (IH (tick w0)) as (points & E & Hsnd & Hlab).
    unfold bindM at 1. rewrite label_eq. unfold bindM, lift, retM.
    rewrite E. eexists. split; [|split].
    + simpl. rewrite <- Nat.iter_succ_r. reflexivity.
    + simpl. now rewrite Hsnd.
    + intros [|k] w Hk; simpl in Hk.
      * injection Hk as <-. eexists. split; [reflexivity|].
        simpl. now rewrite label_eq.
      * destruct (Hlab k w Hk) as (x & Hx & Hl).
        exists x. split; [exact Hx|].
        rewrite <- !Nat.iter_succ_r in Hl. exact Hl.
Qed.

End TrendFacts.

(** ** The further properties on the sample data *)

Section FurtherExamples.
Import Samples Gallery.
#[local] Existing Instance rt.

Lemma first_call_in_start :
  CaiYun_get_weather provider start =
  {| returned := inr (Some (refreshed_at 1001)); self_after := warm;
     world_after := later; refreshes := 1 |}.
Proof. vm_compute. reflexivity. Qed.

(** The two hourly records, one for each index of the series. *)
Lemma parse_one_record_per_index_witness :
  parse [] hourly HOURLY = inr hourly_records /\
  exists series n new,
    Py.getitem hourly "precipitation" = inr series /\
    Py.len series = inr n /\
    hourly_records = ([] ++ new)%list /\
    List.length new = n /\
    forall i, (i < n)%nat ->
      exists w, nth_error new i = Some w /\
                parse_entry hourly HOURLY i = inr w.
Proof.
  split; [vm_compute; reflexivity|].
  apply (parse_one_record_per_index [] hourly HOURLY hourly_records).
  vm_compute; reflexivity.
Defined.

(** The series that stops short: the second index raises [IndexError]. *)
Lemma parse_first_failure_witness :
  (exists w, parse_entry ragged HOURLY 0 = inr w) /\
  parse_entry ragged HOURLY 1 = inl IndexError /\
  parse [] ragged HOURLY = inl IndexError.
Proof.
  split; [eexists; vm_compute; reflexivity|].
  split; [vm_compute; reflexivity|].
  apply (parse_first_failure [] ragged HOURLY
           (PList [at_hour (PInt 0); at_hour (num 1 2)]) 2 1 IndexError).
  - reflexivity.
  - reflexivity.
  - apply Nat.lt_succ_diag_r.
  - intros j Hj. destruct j as [|j].
    + eexists; vm_compute; reflexivity.
    + exfalso. apply Nat.succ_lt_mono in Hj. now apply Nat.nlt_0_r in Hj.
  - vm_compute; reflexivity.
Defined.

(** The first hourly record keeps the pressure of the payload, 101300. *)
Lemma parse_entry_fields_witness :
  exists w,
    parse_entry hourly HOURLY 0 = inr w /\
    pressure w = PInt 101300 /\
    (exists u, column hourly "pressure" 0 = inr u /\
               pick u = inr (pressure w)) /\
    (exists u raw, column hourly "skycon" 0 = inr u /\
                   pick u = inr (PStr raw) /\ day w = caiyun_get_day raw).
Proof.
  eexists. split; [vm_compute; reflexivity|]. split; [reflexivity|].
  match goal with
  | |- context [pick _ = inr (pressure ?w)] =>
      destruct (parse_entry_fields hourly HOURLY 0 w)
        as (_ & _ & _ & Hsky & Hpressure & _);
        [vm_compute; reflexivity|]
  end.
  split; [exact Hpressure | exact Hsky].
Defined.

(** An OK response whose body [json.loads] rejects. *)
Lemma invalidate_fails_before_clock_witness :
  @json_loads deaf (text good_response) = inl ValueError /\
  @CaiYun_invalidate deaf (CaiYunWeatherProvider_init shanghai "KEY" 3600)
                     start =
  (inl ValueError,
   @requested deaf (CaiYunWeatherProvider_init shanghai "KEY" 3600) start).
Proof.
  split; [reflexivity|].
  apply (@invalidate_fails_before_clock deaf).
  right. exists good_response. repeat split. now left.
Defined.

(** The outage: the failed call leaves a timestamp, the call after it is
    served the empty cache. *)
Lemma get_weather_raises_witness :
  returned (CaiYun_get_weather provider outage) = inl IOError /\
  refreshes (CaiYun_get_weather provider outage) = 1%nat /\
  cache (self_after (CaiYun_get_weather provider outage)) =
    cache (caiyun_base provider) /\
  exists t,
    update_time (self_after (CaiYun_get_weather provider outage)) = Some t /\
    forall w2,
      now w2 - t < cache_invalidation (caiyun_base provider) ->
      Cached_get_weather (CaiYun_invalidate provider)
        (self_after (CaiYun_get_weather provider outage)) w2 =
      {| returned := inr (cache (caiyun_base provider));
         self_after := self_after (CaiYun_get_weather provider outage);
         world_after := tick w2; refreshes := 0 |}.
Proof.
  split; [vm_compute; reflexivity|].
  apply (get_weather_raises (CaiYun_invalidate provider)
           (caiyun_base provider) outage IOError).
  vm_compute; reflexivity.
Defined.

(** Three calls within the hour that follows the first one. *)
Lemma Cached_calls_within_ttl_witness :
  update_time warm = Some 1000 /\
  Cached_calls (CaiYun_invalidate provider) warm [later; start; later] =
  map (fun w => {| returned := inr (cache warm); self_after := warm;
                   world_after := tick w; refreshes := 0 |})
      [later; start; later].
Proof.
  split; [reflexivity|].
  apply (Cached_calls_within_ttl (CaiYun_invalidate provider) warm 1000).
  - reflexivity.
  - repeat constructor.
Defined.

(** With a lifespan of zero the second call refreshes too. *)
Lemma get_weather_no_lifespan_witness :
  let filling := CaiYun_get_weather uncached start in
  update_time (self_after filling) = Some 1000 /\
  now (world_after filling) = 1002 /\
  Cached_get_weather (CaiYun_invalidate uncached) (self_after filling)
                     (world_after filling) =
    refresh_and_store (CaiYun_invalidate uncached) (self_after filling)
                      (tick (world_after filling)) /\
  refreshes (Cached_get_weather (CaiYun_invalidate uncached)
               (self_after filling) (world_after filling)) = 1%nat.
Proof.
  intros filling.
  split; [vm_compute; reflexivity|]. split; [vm_compute; reflexivity|].
  apply (get_weather_no_lifespan (CaiYun_invalidate uncached)
           (self_after filling) (world_after filling) 1000).
  - vm_compute; reflexivity.
  - apply Qle_bool_imp_le. vm_compute; reflexivity.
  - apply Qle_bool_imp_le. vm_compute; reflexivity.
Defined.

(** The provider after its first call is a state it passes through. *)
Lemma reachable_invariant_witness :
  reachable (CaiYun_invalidate provider) shanghai CELSIUS 3600
    (self_after (CaiYun_get_weather provider start)) /\
  get_location (cached_base (self_after (CaiYun_get_weather provider start)))
    = shanghai /\
  get_temperature_unit
    (cached_base (self_after (CaiYun_get_weather provider start))) = CELSIUS /\
  cache_invalidation (self_after (CaiYun_get_weather provider start)) = 3600 /\
  (forall data,
     cache (self_after (CaiYun_get_weather provider start)) = Some data ->
     exists t,
       update_time (self_after (CaiYun_get_weather provider start)) = Some t).
Proof.
  assert (Hreach : reachable (CaiYun_invalidate provider) shanghai CELSIUS 3600
                     (self_after (CaiYun_get_weather provider start))).
  { apply (reachable_call (CaiYun_invalidate provider) shanghai CELSIUS 3600
             (caiyun_base provider) start).
    apply reachable_init. }
  split; [exact Hreach|].
  exact (reachable_invariant (CaiYun_invalidate provider) shanghai CELSIUS
           3600 _ Hreach).
Defined.

(** What the views show of [refreshed]. *)
Lemma views_on_refresh_witness :
  CaiYun_invalidate provider start = (inr refreshed, served) /\
  exists current hourly daily,
    refreshed = ([current] ++ hourly ++ daily)%list /\
    Large_select CURRENT refreshed = Some current /\
    Large_select HOURLY refreshed = hd_error hourly /\
    Large_select DAILY refreshed = hd_error daily /\
    Large_select ANY refreshed = None /\
    Mini_select ANY refreshed = Some current.
Proof.
  split; [vm_compute; reflexivity|].
  apply (views_on_refresh provider start refreshed served).
  vm_compute; reflexivity.
Defined.

End FurtherExamples.

(** ** Edges of [pick] and of the cache *)

(** X19. [pick] answers for dicts only. On a string or a list it
    raises [TypeError] when "value" or "avg" occurs in it (the test
    succeeds and the subscript is refused) and [ValueError] when neither
    does; on a number, a boolean or [None] it raises [TypeError]. *)
Theorem pick_only_dicts :
  (forall s,
     pick (PStr s) =
     inl (if PyStr.contains "value" s || PyStr.contains "avg" s
          then TypeError else ValueError)) /\
  (forall l,
     pick (PList l) =
     inl (if existsb (Py.is_str "value") l || existsb (Py.is_str "avg") l
          then TypeError else ValueError)) /\
  pick PNone = inl TypeError /\
  (forall b, pick (PBool b) = inl TypeError) /\
  (forall z, pick (PInt z) = inl TypeError) /\
  (forall f, pick (PFloat f) = inl TypeError) /\
  (forall unit v, pick unit = inr v -> exists d, unit = PDict d).
Proof.
  assert (Hstr : forall s,
    pick (PStr s) =
    inl (if PyStr.contains "value" s || PyStr.contains "avg" s
         then TypeError else ValueError)).
  { intros s. unfold pick; simpl.
    destruct (PyStr.contains "value" s); simpl; [reflexivity|].
    destruct (PyStr.contains "avg" s); reflexivity. }
  assert (Hlist : forall l,
    pick (PList l) =
    inl (if existsb (Py.is_str "value") l || existsb (Py.is_str "avg") l
         then TypeError else ValueError)).
  { intros l. unfold pick; simpl.
    destruct (existsb (Py.is_str "value") l); simpl; [reflexivity|].
    destruct (existsb (Py.is_str "avg") l); reflexivity. }
  repeat split; try assumption; try reflexivity.
  intros unit v.
  destruct unit as [| | | |s|l|d]; try discriminate.
  - now rewrite Hstr.
  - now rewrite Hlist.
  - intros _. now exists d.
Qed.

Section CacheEdges.
Context `{PyRuntime}.

(** With a hook that returns a list whenever it returns, a [None] can
    only come out of the cache. *)
Lemma cached_returns_none (invalidate : M (list Weather)) self w :
  returned (Cached_get_weather invalidate self w) = inr None ->
  cache self = None /\
  refreshes (Cached_get_weather invalidate self w) = 0%nat /\
  exists t, update_time self = Some t /\ now w - t < cache_invalidation self.
Proof.
  assert (Hrefresh : forall w0,
            returned (refresh_and_store invalidate self w0) <> inr None).
  { intros w0. unfold refresh_and_store, pytime_time.
    destruct (invalidate (tick w0)) as [[e|data] w2]; simpl; discriminate. }
  unfold Cached_get_weather, pytime_time.
  destruct (update_time self) as [t|];
    [|intros E; now apply Hrefresh in E].
  destruct (Qltb (now w - t) (cache_invalidation self)) eqn:Hlt;
    [|intros E; now apply Hrefresh in E].
  simpl. intros [= Hc]. repeat split; [exact Hc|].
  exists t. split; [reflexivity | now apply Qltb_lt].
Qed.

(** X20. On a CaiYun provider, whose [invalidate] returns a list
    whenever it returns, [get_weather] returns Python's [None] in one
    situation only: the cache was never filled, yet a timestamp is stored
    and fewer than [cache_invalidation] seconds have gone since; the call
    then makes no refresh and sends no request. *)
Theorem get_weather_returns_none (self : CaiYunWeatherProvider) (w : World) :
  returned (CaiYun_get_weather self w) = inr None ->
  cache (caiyun_base self) = None /\
  refreshes (CaiYun_get_weather self w) = 0%nat /\
  sent (world_after (CaiYun_get_weather self w)) = sent w /\
  exists t,
    update_time (caiyun_base self) = Some t /\
    now w - t < cache_invalidation (caiyun_base self).
Proof.
  intros Hnone.
  destruct (cached_returns_none (CaiYun_invalidate self) (caiyun_base self)
              w Hnone) as (Hc & Hn & t & Ht & Hlt).
  repeat split; try assumption; [|now exists t].
  unfold CaiYun_get_weather.
  rewrite (get_weather_fresh (CaiYun_invalidate self) (caiyun_base self)
             w t Ht Hlt).
  reflexivity.
Qed.

End CacheEdges.

Section EdgeExamples.
Import Samples Gallery.
#[local] Existing Instance rt.

(** During the outage, the call that follows the failed one. *)
Lemma get_weather_returns_none_witness :
  let failed := CaiYun_get_weather provider outage in
  let poisoned := CaiYun_after provider failed in
  returned (CaiYun_get_weather poisoned (world_after failed)) = inr None /\
  cache (caiyun_base poisoned) = None /\
  refreshes (CaiYun_get_weather poisoned (world_after failed)) = 0%nat /\
  sent (world_after (CaiYun_get_weather poisoned (world_after failed))) =
    sent (world_after failed) /\
  exists t,
    update_time (caiyun_base poisoned) = Some t /\
    now (world_after failed) - t < cache_invalidation (caiyun_base poisoned).
Proof.
  intros failed poisoned. split; [vm_compute; reflexivity|].
  apply (get_weather_returns_none poisoned (world_after failed)).
  vm_compute; reflexivity.
Defined.

End EdgeExamples.
